(** * fastapi-response-boost: the caching decorator and the user endpoint

    A shallow embedding of [decorator.py] (the [cache_response] decorator and
    its [wrapper]), of [app.py] (the [users_db] table and the
    [get_user_details] handler) and of [model.py] (the [User] record), with
    the properties the specification states about them.

    Python values are an inductive type, Python [str] is a list of Unicode
    code points, exceptions are values of the type [exn], and the effects of
    the wrapper (store reads and writes, the call of the handler) are
    threaded through a small state-and-exception monad that also records the
    calls made to the collaborators. *)

From Stdlib Require Import ZArith NArith List Ascii String Lia Bool.
From Stdlib Require Import DecimalFacts DecimalPos DecimalN DecimalZ.
From stdpp Require Import base option list gmap.

Local Open Scope Z_scope.

(* ===================================================================== *)
(** ** Python data *)
(* ===================================================================== *)

(** A Python [str]: the sequence of its code points. *)
Abbreviation pystr := (list N).

(** The [str] denoted by an ASCII literal of the source. *)
Definition py (s : string) : pystr :=
  List.map N_of_ascii (list_ascii_of_string s).

(** Python values. Floats are not modelled; dictionaries are the
    string-keyed, insertion-ordered ones the handler returns and JSON
    produces. *)
#[local] Unset Elimination Schemes.
Inductive pyval : Type :=
| PNone
| PBool (b : bool)
| PInt (z : Z)
| PStr (s : pystr)
| PList (l : list pyval)
| PDict (d : list (pystr * pyval)).
#[local] Set Elimination Schemes.

(** Instances of [Exception]: what [except Exception] catches. Signals that
    derive from [BaseException] only (cancellation of the coroutine, keyboard
    interrupt) belong to the scheduler and are not modelled. *)
Inductive exn : Type :=
| HTTPException (status_code : Z) (detail : pystr)
| Error (cls : string) (msg : pystr).

(** The result of evaluating a Python expression or call. *)
Inductive outcome (A : Type) : Type :=
| Return (a : A)
| Raise (e : exn).
Arguments Return {A} a.
Arguments Raise {A} e.

(** *** [str(int)] *)

Definition digit_char (n : N) : N := (48 + n)%N.

Fixpoint uint_chars (d : Decimal.uint) : pystr :=
  match d with
  | Decimal.Nil => []
  | Decimal.D0 d => digit_char 0 :: uint_chars d
  | Decimal.D1 d => digit_char 1 :: uint_chars d
  | Decimal.D2 d => digit_char 2 :: uint_chars d
  | Decimal.D3 d => digit_char 3 :: uint_chars d
  | Decimal.D4 d => digit_char 4 :: uint_chars d
  | Decimal.D5 d => digit_char 5 :: uint_chars d
  | Decimal.D6 d => digit_char 6 :: uint_chars d
  | Decimal.D7 d => digit_char 7 :: uint_chars d
  | Decimal.D8 d => digit_char 8 :: uint_chars d
  | Decimal.D9 d => digit_char 9 :: uint_chars d
  end.

(** [int.__repr__]: decimal digits, a leading [-] for negative numbers, no
    leading zeros. CPython's configurable limit on the number of digits of a
    conversion between [int] and [str] is not modelled. *)
Definition int_repr (z : Z) : pystr :=
  match Z.to_int z with
  | Decimal.Pos d => uint_chars d
  | Decimal.Neg d => 45%N :: uint_chars d
  end.

(** *** Truth value testing ([bool(v)], as used by [or], [if] and [not]) *)

Definition truthy (v : pyval) : bool :=
  match v with
  | PNone => false
  | PBool b => b
  | PInt z => negb (z =? 0)
  | PStr s => negb (bool_decide (s = []))
  | PList l => match l with [] => false | _ => true end
  | PDict d => match d with [] => false | _ => true end
  end.

(** [a or b]: [a] when it is truthy, else the value of [b] (which is only
    evaluated in that case, and may raise). *)
Definition py_or (a : pyval) (b : outcome pyval) : outcome pyval :=
  if truthy a then Return a else b.

(** [str(e)] for an exception. Starlette's [HTTPException.__str__] gives
    ["<status_code>: <detail>"]; for the other exceptions it is the message
    they were built with. *)
Definition exn_str (e : exn) : pystr :=
  match e with
  | HTTPException sc d => int_repr sc ++ py ": " ++ d
  | Error _ msg => msg
  end.

(** [args[0]] on the tuple of positional arguments. *)
Definition args_first (args : list pyval) : outcome pyval :=
  match args with
  | a :: _ => Return a
  | [] => Raise (Error "IndexError" (py "tuple index out of range"))
  end.

(** [kwargs.get(name)]: the value bound to [name], or [None]. *)
Definition kwargs_get (kwargs : gmap pystr pyval) (name : pystr) : pyval :=
  default PNone (kwargs !! name).

(* ===================================================================== *)
(** ** The collaborators of the wrapper *)
(* ===================================================================== *)

(** What [decorator.py] imports and does not define: the [json] module and
    aiocache's [RedisCache]. [W] is the state of the world outside the
    wrapper (the contents of the store, the connection, whatever the handler
    reads or changes). The store is addressed through the client built with
    [RedisCache(endpoint="localhost", port=6379, namespace=namespace)], so
    both operations receive the namespace the client was built with. The
    last field is Python's [str()] of a list or a dictionary, which
    [str(user_id)] reaches when the identifying argument is a container. *)
Class Collaborators (W : Type) : Type := {
  json_loads : pyval → outcome pyval;
  json_dumps : pyval → outcome pystr;
  cache_get : pystr → pystr → W → outcome pyval * W;
  cache_set : pystr → pystr → pystr → Z → W → outcome () * W;
  container_str : pyval → pystr;
}.

(** [str(v)], which the f-string applies to [user_id]. *)
Definition py_str `{Collaborators W} (v : pyval) : pystr :=
  match v with
  | PNone => py "None"
  | PBool true => py "True"
  | PBool false => py "False"
  | PInt z => int_repr z
  | PStr s => s
  | PList _ | PDict _ => container_str v
  end.

(** A request handler: an [async def] called with positional and keyword
    arguments, which returns a value or raises, and may change the world. *)
Definition handler (W : Type) : Type :=
  list pyval → gmap pystr pyval → W → outcome pyval * W.

(** The calls the wrapper makes to its collaborators, in the order made. *)
Inductive event : Type :=
| EvGet (namespace key : pystr)
| EvCall (args : list pyval) (kwargs : gmap pystr pyval)
| EvSet (namespace key value : pystr) (ttl : Z).

Record state (W : Type) : Type := State {
  world : W;
  trace : list event;
}.
Arguments State {W} world trace.
Arguments world {W} s.
Arguments trace {W} s.

(** The number of times the handler was invoked along a trace. *)
Definition handler_calls (t : list event) : nat :=
  List.length (List.filter (λ ev, match ev with EvCall _ _ => true | _ => false end) t).

(** The store writes along a trace. *)
Definition store_writes (t : list event) : list event :=
  List.filter (λ ev, match ev with EvSet _ _ _ _ => true | _ => false end) t.

(* ===================================================================== *)
(** ** The monad of the wrapper: state and exceptions *)
(* ===================================================================== *)

Section Monad.
Context {W : Type}.

Definition M (A : Type) : Type := state W → outcome A * state W.

Definition ret {A} (a : A) : M A := λ st, (Return a, st).

Definition raise {A} (e : exn) : M A := λ st, (Raise e, st).

Definition bind {A B} (m : M A) (k : A → M B) : M B :=
  λ st, match m st with
        | (Return a, st') => k a st'
        | (Raise e, st') => (Raise e, st')
        end.

(** An expression without effect on the world, which may raise. *)
Definition eval {A} (o : outcome A) : M A := λ st, (o, st).

(** [try: m except Exception as e: h e] *)
Definition try_except {A} (m : M A) (h : exn → M A) : M A :=
  λ st, match m st with
        | (Return a, st') => (Return a, st')
        | (Raise e, st') => h e st'
        end.

(** An operation on the world, recorded in the trace when it is started. *)
Definition perform {A} (ev : event) (op : W → outcome A * W) : M A :=
  λ st, let '(r, w') := op (world st) in
        (r, State w' (trace st ++ [ev])).
End Monad.

Notation "'let*' x ':=' m 'in' k" := (bind m (λ x, k))
  (at level 10, x name, m at level 100, k at level 200).

(* ===================================================================== *)
(** ** decorator.py *)
(* ===================================================================== *)

Section Decorator.
Context {W : Type} `{!Collaborators W}.

(** [await cache.get(cache_key)] *)
Definition await_cache_get (namespace cache_key : pystr) : M (W:=W) pyval :=
  perform (EvGet namespace cache_key) (cache_get namespace cache_key).

(** [await cache.set(cache_key, value, ttl=ttl)] *)
Definition await_cache_set (namespace cache_key value : pystr) (ttl : Z) : M (W:=W) () :=
  perform (EvSet namespace cache_key value ttl) (cache_set namespace cache_key value ttl).

(** [await func( *args, **kwargs )] *)
Definition await_func (func : handler W) (args : list pyval)
    (kwargs : gmap pystr pyval) : M (W:=W) pyval :=
  perform (EvCall args kwargs) (func args kwargs).

(** [user_id = kwargs.get('user_id') or args[0]] *)
Definition identifying_argument (args : list pyval) (kwargs : gmap pystr pyval)
    : outcome pyval :=
  py_or (kwargs_get kwargs (py "user_id")) (args_first args).

(** [cache_key = f"{namespace}:user:{user_id}"] *)
Definition cache_key (namespace : pystr) (user_id : pyval) : pystr :=
  namespace ++ py ":user:" ++ py_str user_id.

(** The body of [wrapper], for the decorator arguments [ttl] and
    [namespace] and the decorated function [func]. *)
Definition wrapper (ttl : Z) (namespace : pystr) (func : handler W)
    (args : list pyval) (kwargs : gmap pystr pyval) : M (W:=W) pyval :=
  let* user_id := eval (identifying_argument args kwargs) in
  let cache_key := cache_key namespace user_id in
  let* cached_value := await_cache_get namespace cache_key in
  if truthy cached_value then
    eval (json_loads cached_value)
  else
    let* response := await_func func args kwargs in
    let* _ := try_except
                (let* serialized := eval (json_dumps response) in
                 await_cache_set namespace cache_key serialized ttl)
                (λ e, raise (HTTPException 500
                               (py "Error caching data: " ++ exn_str e))) in
    ret response.

(** [cache_response(ttl, namespace)(func)], with the defaults of the
    source for the two decorator arguments. *)
Definition cache_response (ttl : option Z) (namespace : option pystr)
    (func : handler W) : list pyval → gmap pystr pyval → M (W:=W) pyval :=
  wrapper (default 60 ttl) (default (py "main") namespace) func.
End Decorator.

(* ===================================================================== *)
(** ** model.py and app.py *)
(* ===================================================================== *)

(** [model.py]: the fields of a [User]. *)
Record User : Type := mkUser {
  user_id_ : Z;
  user_name : pystr;
  user_email : pystr;
  user_age : Z;
}.

(** The dictionary [{"id": .., "name": .., "email": .., "age": ..}] with the
    fields of a user, in the order the literals of [users_db] list them. *)
Definition user_dict (u : User) : pyval :=
  PDict [ (py "id", PInt (user_id_ u));
          (py "name", PStr (user_name u));
          (py "email", PStr (user_email u));
          (py "age", PInt (user_age u)) ].

(** [users_db]: the sample table, keyed by the integer identifier. *)
Definition users_db : gmap Z pyval :=
  {[ 1 := user_dict (mkUser 1 (py "Manas") (py "manas@example.com") 25);
     2 := user_dict (mkUser 2 (py "omkar") (py "omkar@example.com") 29);
     3 := user_dict (mkUser 3 (py "anand") (py "anand@example.com") 27) ]}.

(** [users_db.get(user_id)] for an arbitrary Python value: an [int] key is
    looked up, [True] and [False] hash and compare equal to [1] and [0],
    [None] and strings equal no key, a list or dictionary is unhashable. *)
Definition users_db_get (user_id : pyval) : outcome pyval :=
  match user_id with
  | PInt z => Return (default PNone (users_db !! z))
  | PBool b => Return (default PNone (users_db !! Z.b2z b))
  | PNone | PStr _ => Return PNone
  | PList _ => Raise (Error "TypeError" (py "unhashable type: 'list'"))
  | PDict _ => Raise (Error "TypeError" (py "unhashable type: 'dict'"))
  end.

(** The body of [get_user_details], once [user_id] is bound. *)
Definition get_user_details_body (user_id : pyval) : outcome pyval :=
  match users_db_get user_id with
  | Raise e => Raise e
  | Return user =>
      if negb (truthy user)
      then Raise (HTTPException 404 (py "User not found"))
      else Return user
  end.

(** Python's binding of a call [f( *args, **kwargs )] to the single
    parameter [user_id] of [f]. A call that does not supply exactly that
    parameter raises [TypeError]; when several things are wrong with a call
    the unexpected keyword is reported first. *)
Definition bind_user_id (fname : pystr) (args : list pyval)
    (kwargs : gmap pystr pyval) : outcome pyval :=
  match map_to_list (delete (py "user_id") kwargs) with
  | (k, _) :: _ =>
      Raise (Error "TypeError"
               (fname ++ py "() got an unexpected keyword argument '" ++ k ++ py "'"))
  | [] =>
      match args, kwargs !! py "user_id" with
      | [a], None => Return a
      | [], Some v => Return v
      | [], None =>
          Raise (Error "TypeError"
                   (fname ++ py "() missing 1 required positional argument: 'user_id'"))
      | [_], Some _ =>
          Raise (Error "TypeError"
                   (fname ++ py "() got multiple values for argument 'user_id'"))
      | _ :: _ :: _, _ =>
          Raise (Error "TypeError"
                   (fname ++ py "() takes 1 positional argument but "
                      ++ int_repr (Z.of_nat (List.length args)) ++ py " were given"))
      end
  end.

(** [get_user_details]: it reads the table only and leaves the world
    alone. *)
Definition get_user_details {W : Type} : handler W :=
  λ args kwargs w,
    (match bind_user_id (py "get_user_details") args kwargs with
     | Raise e => Raise e
     | Return user_id => get_user_details_body user_id
     end, w).

(** The body of an HTTP response. *)
Inductive body : Type :=
| JsonBody (v : pyval)
| TextBody (s : pystr).

(** Modelled from the spec: the HTTP surface of section 6, which FastAPI
    provides and the repository does not define. A returned value is a 200
    response with the value as JSON body, an [HTTPException] is a response
    with its status code and the body [{"detail": detail}], and any other
    exception is the server's 500 response. *)
Definition http_response (o : outcome pyval) : Z * body :=
  match o with
  | Return v => (200, JsonBody v)
  | Raise (HTTPException sc d) => (sc, JsonBody (PDict [(py "detail", PStr d)]))
  | Raise (Error _ _) => (500, TextBody (py "Internal Server Error"))
  end.

(** [GET /users/{user_id}]: the route calls the decorated handler with the
    validated path parameter as the keyword argument [user_id]. *)
Definition get_users_route {W : Type} `{!Collaborators W} (user_id : Z)
    : state W → (Z * body) * state W :=
  λ st,
    let '(o, st') :=
      cache_response (Some 120) (Some (py "users")) get_user_details
        [] {[ py "user_id" := PInt user_id ]} st in
    (http_response o, st').

(* ===================================================================== *)
(** ** The [json] module on the values of the model *)
(* ===================================================================== *)

(** CPython's [json.dumps] and [json.loads] with their default arguments, as
    far as the values of [pyval] go. Number literals with a fraction or an
    exponent, [NaN] and [Infinity] denote floats, which [pyval] does not
    have: [loads] stands for [json.loads] on the texts without them. The
    text and position of a decoding error are not modelled. *)
Module Json.
Local Open Scope N_scope.

Definition QUOTE : N := 34.
Definition BACKSLASH : N := 92.
Definition MINUS : N := 45.
Definition COMMA : N := 44.
Definition COLON : N := 58.
Definition LBRACE : N := 123.
Definition RBRACE : N := 125.
Definition LBRACKET : N := 91.
Definition RBRACKET : N := 93.

(** *** Encoding *)

(** One lower-case hexadecimal digit. *)
Definition hex_char (d : N) : N := if d <? 10 then 48 + d else 87 + d.

(** ['\\u{0:04x}'.format(n)], for [n < 0x10000]. *)
Definition u_escape (n : N) : pystr :=
  [ BACKSLASH; 117;
    hex_char ((n / 4096) mod 16); hex_char ((n / 256) mod 16);
    hex_char ((n / 16) mod 16); hex_char (n mod 16) ].

(** The replacement of one character by [encode_basestring_ascii]: the
    short escapes of [ESCAPE_DCT], the printable ASCII characters as they
    are, [\uXXXX] for the rest of the basic plane and a surrogate pair
    beyond it. *)
Definition encode_char (c : N) : pystr :=
  if c =? QUOTE then [BACKSLASH; QUOTE]
  else if c =? BACKSLASH then [BACKSLASH; BACKSLASH]
  else if c =? 10 then [BACKSLASH; 110]
  else if c =? 13 then [BACKSLASH; 114]
  else if c =? 9 then [BACKSLASH; 116]
  else if c =? 8 then [BACKSLASH; 98]
  else if c =? 12 then [BACKSLASH; 102]
  else if (32 <=? c) && (c <=? 126) then [c]
  else if c <? 0x10000 then u_escape c
  else
    let n := c - 0x10000 in
    let s1 := N.lor 0xd800 (N.land (N.shiftr n 10) 0x3ff) in
    let s2 := N.lor 0xdc00 (N.land n 0x3ff) in
    u_escape s1 ++ u_escape s2.

Definition encode_basestring_ascii (s : pystr) : pystr :=
  QUOTE :: flat_map encode_char s ++ [QUOTE].

(** [', '.join(chunks)] *)
Fixpoint join_items (chunks : list pystr) : pystr :=
  match chunks with
  | [] => []
  | [x] => x
  | x :: rest => x ++ py ", " ++ join_items rest
  end.

(** [JSONEncoder().encode(v)]: item separator [", "], key separator
    [": "], keys in insertion order. *)
Fixpoint encode (v : pyval) : pystr :=
  match v with
  | PNone => py "null"
  | PBool true => py "true"
  | PBool false => py "false"
  | PInt z => int_repr z
  | PStr s => encode_basestring_ascii s
  | PList l => [LBRACKET] ++ join_items (List.map encode l) ++ [RBRACKET]
  | PDict d =>
      [LBRACE]
        ++ join_items
             (List.map (λ kv, encode_basestring_ascii (fst kv) ++ py ": " ++ encode (snd kv)) d)
        ++ [RBRACE]
  end.

(** [json.dumps(v)]. Every value of the model is serializable. *)
Definition dumps (v : pyval) : outcome pystr := Return (encode v).

(** *** Decoding *)

Definition is_ws (c : N) : bool :=
  (c =? 32) || (c =? 9) || (c =? 10) || (c =? 13).

(** [WHITESPACE.match(s, end).end()] *)
Fixpoint skip_ws (s : pystr) : pystr :=
  match s with
  | c :: s' => if is_ws c then skip_ws s' else s
  | [] => []
  end.

Definition is_digit (c : N) : bool := (48 <=? c) && (c <=? 57).

Definition hex_val (c : N) : option N :=
  if (48 <=? c) && (c <=? 57) then Some (c - 48)
  else if (97 <=? c) && (c <=? 102) then Some (c - 87)
  else if (65 <=? c) && (c <=? 70) then Some (c - 55)
  else None.

(** The value of four hexadecimal digits. *)
Definition hex4 (a b c d : N) : option N :=
  match hex_val a, hex_val b, hex_val c, hex_val d with
  | Some a, Some b, Some c, Some d => Some (((a * 16 + b) * 16 + c) * 16 + d)
  | _, _, _, _ => None
  end.

(** The character a short escape stands for (the table [BACKSLASH] of
    [json.decoder]). *)
Definition short_escape (esc : N) : option N :=
  if esc =? QUOTE then Some QUOTE
  else if esc =? BACKSLASH then Some BACKSLASH
  else if esc =? 47 then Some 47
  else if esc =? 98 then Some 8
  else if esc =? 102 then Some 12
  else if esc =? 110 then Some 10
  else if esc =? 114 then Some 13
  else if esc =? 116 then Some 9
  else None.

Definition is_high_surrogate (u : N) : bool := (0xd800 <=? u) && (u <=? 0xdbff).
Definition is_low_surrogate (u : N) : bool := (0xdc00 <=? u) && (u <=? 0xdfff).

Definition cons_char (c : N) (r : option (pystr * pystr)) : option (pystr * pystr) :=
  match r with
  | Some (content, rest) => Some (c :: content, rest)
  | None => None
  end.

(** [scanstring(s, end, strict=True)], from just after the opening quote:
    the decoded string and the text after the closing quote. A raw control
    character, an unknown escape or a missing closing quote is an error; a
    [\uXXXX] high surrogate directly followed by a [\uXXXX] low surrogate
    is combined into one character. *)
Fixpoint scanstring (s : pystr) : option (pystr * pystr) :=
  match s with
  | [] => None
  | c :: s1 =>
      if c =? QUOTE then Some ([], s1)
      else if c =? BACKSLASH then
        match s1 with
        | [] => None
        | esc :: s2 =>
            if esc =? 117 then
              match s2 with
              | a :: b :: c :: d :: s3 =>
                  match hex4 a b c d with
                  | None => None
                  | Some uni =>
                      if is_high_surrogate uni then
                        match s3 with
                        | b1 :: u1 :: s4 =>
                            if (b1 =? BACKSLASH) && (u1 =? 117) then
                              match s4 with
                              | a' :: b' :: c' :: d' :: s5 =>
                                  match hex4 a' b' c' d' with
                                  | None => None
                                  | Some uni2 =>
                                      if is_low_surrogate uni2 then
                                        cons_char
                                          (0x10000 +
                                             N.lor (N.shiftl (uni - 0xd800) 10) (uni2 - 0xdc00))
                                          (scanstring s5)
                                      else cons_char uni (scanstring s3)
                                  end
                              | _ => None
                              end
                            else cons_char uni (scanstring s3)
                        | _ => cons_char uni (scanstring s3)
                        end
                      else cons_char uni (scanstring s3)
                  end
              | _ => None
              end
            else
              match short_escape esc with
              | Some ch => cons_char ch (scanstring s2)
              | None => None
              end
        end
      else if c <? 32 then None
      else cons_char c (scanstring s1)
  end.

(** The longest prefix of decimal digits, as a decimal numeral. *)
Fixpoint scan_digits (s : pystr) : Decimal.uint * pystr :=
  match s with
  | c :: s' =>
      if is_digit c then
        let '(d, r) := scan_digits s' in
        ((match c - 48 with
          | 0 => Decimal.D0 | 1 => Decimal.D1 | 2 => Decimal.D2 | 3 => Decimal.D3
          | 4 => Decimal.D4 | 5 => Decimal.D5 | 6 => Decimal.D6 | 7 => Decimal.D7
          | 8 => Decimal.D8 | _ => Decimal.D9
          end) d, r)
      else (Decimal.Nil, s)
  | [] => (Decimal.Nil, [])
  end.

(** Whether the text after the integer part goes on as a float literal: a
    fraction [.d] or an exponent [e d], [e+d], [e-d]. *)
Definition float_tail (s : pystr) : bool :=
  match s with
  | c :: d :: r =>
      if c =? 46 then is_digit d
      else if (c =? 101) || (c =? 69) then
        is_digit d
        || (((d =? 43) || (d =? MINUS)) && match r with x :: _ => is_digit x | [] => false end)
      else false
  | _ => false
  end.

(** [NUMBER_RE] and [int(integer)]: an optional minus sign, then [0] or a
    run of digits that does not start with [0]. *)
Definition scan_number (s : pystr) : option (Z * pystr) :=
  let '(negative, s1) :=
    match s with
    | c :: s' => if c =? MINUS then (true, s') else (false, s)
    | [] => (false, s)
    end in
  match s1 with
  | c :: s2 =>
      if c =? 48 then
        if float_tail s2 then None else Some (0%Z, s2)
      else if is_digit c then
        let '(d, r) := scan_digits s1 in
        if float_tail r then None
        else Some ((if negative then Z.opp else id) (Z.of_uint d), r)
      else None
  | [] => None
  end.

Fixpoint str_eqb (a b : pystr) : bool :=
  match a, b with
  | [], [] => true
  | x :: a', y :: b' => (x =? y) && str_eqb a' b'
  | _, _ => false
  end.

(** [d[key] = value] on an insertion-ordered dictionary. *)
Fixpoint dict_set (d : list (pystr * pyval)) (key : pystr) (value : pyval)
    : list (pystr * pyval) :=
  match d with
  | [] => [(key, value)]
  | (k, v) :: d' =>
      if str_eqb k key then (k, value) :: d' else (k, v) :: dict_set d' key value
  end.

(** [dict(pairs)] *)
Definition dict_of_pairs (pairs : list (pystr * pyval)) : list (pystr * pyval) :=
  fold_left (λ d kv, dict_set d (fst kv) (snd kv)) pairs [].

(** Whether [s] starts with the ASCII literal [lit]; the rest if so. *)
Fixpoint strip_prefix (lit s : pystr) : option pystr :=
  match lit, s with
  | [], _ => Some s
  | x :: lit', y :: s' => if x =? y then strip_prefix lit' s' else None
  | _ :: _, [] => None
  end.

(** [scan_once], [JSONObject] and [JSONArray]. The recursion of the decoder
    is bounded by [fuel], which [loads] takes larger than the text is
    long. [object_members] starts just after the opening quote of a key and
    returns the pairs up to the closing brace; [array_items] starts at a
    value and returns the values up to the closing bracket. *)
Fixpoint scan_once (fuel : nat) (s : pystr) : option (pyval * pystr) :=
  match fuel with
  | O => None
  | S fuel =>
      match s with
      | [] => None
      | c :: s1 =>
          if c =? QUOTE then
            match scanstring s1 with
            | Some (str, r) => Some (PStr str, r)
            | None => None
            end
          else if c =? LBRACE then
            match skip_ws s1 with
            | c1 :: r1 =>
                if c1 =? RBRACE then Some (PDict [], r1)
                else if c1 =? QUOTE then
                  match object_members fuel r1 with
                  | Some (pairs, r) => Some (PDict (dict_of_pairs pairs), r)
                  | None => None
                  end
                else None
            | [] => None
            end
          else if c =? LBRACKET then
            match skip_ws s1 with
            | c1 :: r1 =>
                if c1 =? RBRACKET then Some (PList [], r1)
                else
                  match array_items fuel (c1 :: r1) with
                  | Some (values, r) => Some (PList values, r)
                  | None => None
                  end
            | [] => None
            end
          else
            match strip_prefix (py "null") s, strip_prefix (py "true") s,
                  strip_prefix (py "false") s with
            | Some r, _, _ => Some (PNone, r)
            | _, Some r, _ => Some (PBool true, r)
            | _, _, Some r => Some (PBool false, r)
            | None, None, None =>
                match scan_number s with
                | Some (z, r) => Some (PInt z, r)
                | None => None
                end
            end
      end
  end
with object_members (fuel : nat) (s : pystr) : option (list (pystr * pyval) * pystr) :=
  match fuel with
  | O => None
  | S fuel =>
      match scanstring s with
      | None => None
      | Some (key, r) =>
          match skip_ws r with
          | c :: r1 =>
              if c =? COLON then
                match scan_once fuel (skip_ws r1) with
                | None => None
                | Some (value, r2) =>
                    match skip_ws r2 with
                    | c2 :: r3 =>
                        if c2 =? RBRACE then Some ([(key, value)], r3)
                        else if c2 =? COMMA then
                          match skip_ws r3 with
                          | c3 :: r4 =>
                              if c3 =? QUOTE then
                                match object_members fuel r4 with
                                | Some (pairs, r5) => Some ((key, value) :: pairs, r5)
                                | None => None
                                end
                              else None
                          | [] => None
                          end
                        else None
                    | [] => None
                    end
                end
              else None
          | [] => None
          end
      end
  end
with array_items (fuel : nat) (s : pystr) : option (list pyval * pystr) :=
  match fuel with
  | O => None
  | S fuel =>
      match scan_once fuel s with
      | None => None
      | Some (value, r) =>
          match skip_ws r with
          | c :: r1 =>
              if c =? RBRACKET then Some ([value], r1)
              else if c =? COMMA then
                match array_items fuel (skip_ws r1) with
                | Some (values, r2) => Some (value :: values, r2)
                | None => None
                end
              else None
          | [] => None
          end
      end
  end.

(** [JSONDecoder().decode(s)]: one value between optional whitespace, and
    nothing after it. *)
Definition decode (s : pystr) : option pyval :=
  match scan_once (S (List.length s)) (skip_ws s) with
  | Some (v, r) => match skip_ws r with [] => Some v | _ :: _ => None end
  | None => None
  end.

Definition type_name (v : pyval) : pystr :=
  match v with
  | PNone => py "NoneType"
  | PBool _ => py "bool"
  | PInt _ => py "int"
  | PStr _ => py "str"
  | PList _ => py "list"
  | PDict _ => py "dict"
  end.

(** [json.loads(v)]: a [TypeError] for what is not text, a
    [JSONDecodeError] for text that is not one JSON document (a leading
    byte order mark included). *)
Definition loads (v : pyval) : outcome pyval :=
  match v with
  | PStr s =>
      match decode s with
      | Some r => Return r
      | None => Raise (Error "JSONDecodeError" [])
      end
  | _ =>
      Raise (Error "TypeError"
               (py "the JSON object must be str, bytes or bytearray, not " ++ type_name v))
  end.

End Json.

(* ===================================================================== *)
(** ** Reference collaborators *)
(* ===================================================================== *)

(** A Redis server as the wrapper sees it through aiocache: a table from
    keys to a value and the time to live it was written with, and whether
    the server can currently be reached for reading and for writing. Expiry
    removes entries; the properties below hold for every table, so for the
    table before and after any expiry. *)
Record redis : Type := Redis {
  reads_ok : bool;
  writes_ok : bool;
  entries : gmap pystr (pystr * Z);
}.

(** aiocache's [RedisCache._build_key]: the namespace of the client, a
    colon, the key. *)
Definition build_key (namespace key : pystr) : pystr :=
  namespace ++ py ":" ++ key.

Definition connection_error : exn :=
  Error "ConnectionError"
    (py "Error 111 connecting to localhost:6379. Connection refused.").

Definition redis_get (namespace key : pystr) (w : redis) : outcome pyval * redis :=
  if reads_ok w then
    (Return (match entries w !! build_key namespace key with
             | Some (value, _) => PStr value
             | None => PNone
             end), w)
  else (Raise connection_error, w).

Definition redis_set (namespace key value : pystr) (ttl : Z) (w : redis)
    : outcome () * redis :=
  if writes_ok w then
    (Return (),
     Redis (reads_ok w) (writes_ok w)
       (<[build_key namespace key := (value, ttl)]> (entries w)))
  else (Raise connection_error, w).

(** [repr] of a [str], exact for text of printable characters: single
    quotes, unless the text has a single quote and no double quote. *)
Definition str_repr (s : pystr) : pystr :=
  let has c := existsb (N.eqb c) s in
  let q := if has 39%N && negb (has 34%N) then 34%N else 39%N in
  q :: flat_map (λ c, if (c =? 92)%N then [92%N; 92%N]
                      else if (c =? q)%N then [92%N; q]
                      else if (c =? 10)%N then [92%N; 110%N]
                      else if (c =? 13)%N then [92%N; 114%N]
                      else if (c =? 9)%N then [92%N; 116%N]
                      else [c]) s
    ++ [q].

(** [repr(v)], which [str()] of a list or dictionary is made of. *)
Fixpoint py_repr (v : pyval) : pystr :=
  match v with
  | PNone => py "None"
  | PBool true => py "True"
  | PBool false => py "False"
  | PInt z => int_repr z
  | PStr s => str_repr s
  | PList l => py "[" ++ Json.join_items (List.map py_repr l) ++ py "]"
  | PDict d =>
      py "{"
        ++ Json.join_items (List.map (λ kv, str_repr (fst kv) ++ py ": " ++ py_repr (snd kv)) d)
        ++ py "}"
  end.

(** CPython's [json] and a Redis server. *)
#[export] Instance cpython_redis : Collaborators redis := {|
  json_loads := Json.loads;
  json_dumps := Json.dumps;
  cache_get := redis_get;
  cache_set := redis_set;
  container_str := py_repr;
|}.

(** A server that is up and holds nothing. *)
Definition empty_redis : redis := Redis true true ∅.

(* ===================================================================== *)
(** ** Notions the properties are stated with *)
(* ===================================================================== *)

(** A sequence of calls [(args, kwargs)] of one wrapped function, one
    after the other; the outcomes in order and the final state. *)
Fixpoint run_calls {W : Type}
    (f : list pyval → gmap pystr pyval → M (W:=W) pyval)
    (calls : list (list pyval * gmap pystr pyval)) (st : state W)
    : list (outcome pyval) * state W :=
  match calls with
  | [] => ([], st)
  | (args, kwargs) :: calls' =>
      let '(r, st1) := f args kwargs st in
      let '(rs, st2) := run_calls f calls' st1 in
      (r :: rs, st2)
  end.

(** The key of the first store read along a trace. *)
Definition key_read (t : list event) : option pystr :=
  match List.filter (λ ev, match ev with EvGet _ _ => true | _ => false end) t with
  | EvGet _ key :: _ => Some key
  | _ => None
  end.

(** The requests [GET /users/z] for the identifiers [ids], one after the
    other: the responses in order and the final state. *)
Fixpoint serve {W : Type} `{!Collaborators W} (ids : list Z) (st : state W)
    : list (Z * body) * state W :=
  match ids with
  | [] => ([], st)
  | z :: ids' =>
      let '(r, st1) := get_users_route z st in
      let '(rs, st2) := serve ids' st1 in
      (r :: rs, st2)
  end.

(** A Unicode scalar value: a code point that is not a surrogate. Text
    decoded from UTF-8 and string literals consist of these. *)
Definition is_scalar (c : N) : Prop :=
  (c < 0xd800 ∨ (0xe000 ≤ c ∧ c < 0x110000))%N.

(** The key under which the route of [app.py] caches the user [z]. *)
Definition users_key (z : Z) : pystr :=
  build_key (py "users") (cache_key (py "users") (PInt z)).

(** The server is up, and what it holds under the key of a user is the
    serialization of that user's record of [users_db] (so nothing under
    the key of an identifier without a record). This is what the route
    itself writes. *)
Definition store_ok (w : redis) : Prop :=
  reads_ok w = true ∧ writes_ok w = true ∧
  ∀ z value ttl, entries w !! users_key z = Some (value, ttl) →
    ∃ record, users_db !! z = Some record ∧ value = Json.encode record.

(** *** Sample inputs *)

(** The record of user 1 in [users_db]. *)
Definition manas : pyval :=
  user_dict (mkUser 1 (py "Manas") (py "manas@example.com") 25).

(** The keyword arguments [user_id=v]. *)
Definition by_keyword (v : pyval) : gmap pystr pyval := {[ py "user_id" := v ]}.

(** A server that holds the cached record of user 1. *)
Definition warm_redis : redis :=
  Redis true true {[ users_key 1 := (Json.encode manas, 120) ]}.

(** A server that answers reads and refuses writes, and one that is down. *)
Definition read_only_redis : redis := Redis true false ∅.
Definition down_redis : redis := Redis false false ∅.

(** A second handler, which answers every call with the same text. *)
Definition other_handler : handler redis :=
  λ _ _ w, (Return (PStr (py "other")), w).

(* ===================================================================== *)
(** ** Properties of the wrapper, for any store, handler and [json] *)
(* ===================================================================== *)

Ltac run_wrapper :=
  unfold cache_response, wrapper, bind, eval, ret, raise, try_except,
    await_cache_get, await_cache_set, await_func, perform; simpl.

Lemma handler_calls_app (t1 t2 : list event) :
  handler_calls (t1 ++ t2) = (handler_calls t1 + handler_calls t2)%nat.
Proof. unfold handler_calls. by rewrite List.filter_app, List.length_app. Qed.

Lemma handler_calls_get (t : list event) ns key :
  handler_calls (t ++ [EvGet ns key]) = handler_calls t.
Proof. rewrite handler_calls_app. unfold handler_calls. simpl. lia. Qed.

Lemma handler_calls_call (t : list event) args kwargs :
  handler_calls (t ++ [EvCall args kwargs]) = S (handler_calls t).
Proof. rewrite handler_calls_app. unfold handler_calls. simpl. lia. Qed.

Lemma handler_calls_set (t : list event) ns key value ttl :
  handler_calls (t ++ [EvSet ns key value ttl]) = handler_calls t.
Proof. rewrite handler_calls_app. unfold handler_calls. simpl. lia. Qed.

Lemma store_writes_app (t1 t2 : list event) :
  store_writes (t1 ++ t2) = store_writes t1 ++ store_writes t2.
Proof. unfold store_writes. apply List.filter_app. Qed.

Section WrapperProperties.
Context {W : Type} `{!Collaborators W}.
Implicit Types (st : state W) (func : handler W) (ns key : pystr)
  (args : list pyval) (kwargs : gmap pystr pyval).

(** The wrapper on a hit: one store read, then the deserialization of what
    was read. *)
Lemma wrapper_hit ttl ns func args kwargs st uid cached w1 :
  identifying_argument args kwargs = Return uid →
  cache_get ns (cache_key ns uid) (world st) = (Return cached, w1) →
  truthy cached = true →
  wrapper ttl ns func args kwargs st
    = (json_loads cached, State w1 (trace st ++ [EvGet ns (cache_key ns uid)])).
Proof.
  intros Hid Hget Htrue. run_wrapper.
  rewrite Hid; simpl. rewrite Hget; simpl. by rewrite Htrue.
Qed.

(** As long as the entry of a key is present, calls for that key leave the
    number of handler invocations where it was. *)
Lemma repeated_hits_no_handler ttl ns func key (present : W → Prop) calls :
  (∀ w, present w →
     ∃ cached w', cache_get ns key w = (Return cached, w')
                  ∧ truthy cached = true ∧ present w') →
  Forall (λ c, ∃ uid, identifying_argument c.1 c.2 = Return uid
                      ∧ cache_key ns uid = key) calls →
  ∀ st, present (world st) →
    handler_calls (trace (run_calls (wrapper ttl ns func) calls st).2)
      = handler_calls (trace st)
    ∧ present (world (run_calls (wrapper ttl ns func) calls st).2).
Proof.
  intros Hpresent Hcalls. induction Hcalls as [|[args kwargs] calls Hc _ IH];
    intros st Hst; simpl; [done|].
  destruct Hc as (uid & Hid & Hkey); simpl in *.
  destruct (Hpresent _ Hst) as (cached & w' & Hget & Htrue & Hw').
  rewrite <- Hkey in Hget.
  rewrite (wrapper_hit ttl ns func args kwargs st uid cached w' Hid Hget Htrue).
  specialize (IH (State w' (trace st ++ [EvGet ns (cache_key ns uid)])) Hw').
  destruct (run_calls _ calls _) as [rs st2]; simpl in *.
  destruct IH as [IH1 IH2]. split; [|done].
  by rewrite IH1, handler_calls_get.
Qed.

(** C1. When [store.get(cache_key)] returns a truthy (present, non-empty)
    value, the wrapper returns [json.loads] of it after the store read
    alone: the handler is not invoked and nothing is written. Hence, as
    long as the entry of a key stays present, any sequence of calls for that
    key never runs the handler. *)
Theorem cache_hit_returns_cached_without_handler :
  (∀ ttl ns func args kwargs st uid cached w1,
     identifying_argument args kwargs = Return uid →
     cache_get ns (cache_key ns uid) (world st) = (Return cached, w1) →
     truthy cached = true →
     let '(result, st') := wrapper ttl ns func args kwargs st in
     result = json_loads cached
     ∧ st' = State w1 (trace st ++ [EvGet ns (cache_key ns uid)])
     ∧ handler_calls (trace st') = handler_calls (trace st)
     ∧ store_writes (trace st') = store_writes (trace st))
  ∧
  (∀ ttl ns func key (present : W → Prop) calls st,
     (∀ w, present w →
        ∃ cached w', cache_get ns key w = (Return cached, w')
                     ∧ truthy cached = true ∧ present w') →
     Forall (λ c, ∃ uid, identifying_argument c.1 c.2 = Return uid
                         ∧ cache_key ns uid = key) calls →
     present (world st) →
     handler_calls (trace (run_calls (wrapper ttl ns func) calls st).2)
       = handler_calls (trace st)).
Proof.
  split.
  - intros ttl ns func args kwargs st uid cached w1 Hid Hget Htrue.
    rewrite (wrapper_hit ttl ns func args kwargs st uid cached w1 Hid Hget Htrue).
    repeat split; simpl.
    + apply handler_calls_get.
    + rewrite store_writes_app. simpl. apply List.app_nil_r.
  - intros ttl ns func key present calls st Hpresent Hcalls Hst.
    by destruct (repeated_hits_no_handler ttl ns func key present calls
                   Hpresent Hcalls st Hst).
Qed.

(** The wrapper on a miss with a working store: the read, the handler, the
    write, and the result of the handler. *)
Lemma wrapper_miss ttl ns func args kwargs st uid cached w1 response w2 serialized w3 :
  identifying_argument args kwargs = Return uid →
  cache_get ns (cache_key ns uid) (world st) = (Return cached, w1) →
  truthy cached = false →
  func args kwargs w1 = (Return response, w2) →
  json_dumps response = Return serialized →
  cache_set ns (cache_key ns uid) serialized ttl w2 = (Return (), w3) →
  wrapper ttl ns func args kwargs st
    = (Return response,
       State w3 (trace st ++ [ EvGet ns (cache_key ns uid);
                               EvCall args kwargs;
                               EvSet ns (cache_key ns uid) serialized ttl ])).
Proof.
  intros Hid Hget Hfalse Hfunc Hdumps Hset. run_wrapper.
  rewrite Hid; simpl. rewrite Hget; simpl. rewrite Hfalse; simpl.
  rewrite Hfunc; simpl. rewrite Hdumps; simpl. rewrite Hset; simpl.
  by rewrite <- !List.app_assoc.
Qed.

(** The extraction of the identifying argument comes first: when it raises,
    the wrapper raises the same and has done nothing. *)
Lemma wrapper_no_identifying_argument ttl ns func args kwargs st e :
  identifying_argument args kwargs = Raise e →
  wrapper ttl ns func args kwargs st = (Raise e, st).
Proof. intros Hid. run_wrapper. by rewrite Hid. Qed.

(** C2. On a miss ([store.get] returns a falsy value: absent or empty), when
    the handler returns [response], [json.dumps] gives [serialized] and the
    store write succeeds, the wrapper runs exactly: the read, one call of
    the handler with the arguments of the call, one
    [store.set(cache_key, serialized, ttl)] with
    [cache_key = namespace + ":user:" + str(user_id)]; and it returns
    [response] unchanged. *)
Theorem cache_miss_calls_handler_once_and_stores
    ttl ns func args kwargs st uid cached w1 response w2 serialized w3 :
  identifying_argument args kwargs = Return uid →
  cache_get ns (cache_key ns uid) (world st) = (Return cached, w1) →
  truthy cached = false →
  func args kwargs w1 = (Return response, w2) →
  json_dumps response = Return serialized →
  cache_set ns (cache_key ns uid) serialized ttl w2 = (Return (), w3) →
  let '(result, st') := wrapper ttl ns func args kwargs st in
  result = Return response
  ∧ world st' = w3
  ∧ trace st' = trace st ++ [ EvGet ns (cache_key ns uid);
                              EvCall args kwargs;
                              EvSet ns (cache_key ns uid) serialized ttl ]
  ∧ handler_calls (trace st') = S (handler_calls (trace st))
  ∧ cache_key ns uid = ns ++ py ":user:" ++ py_str uid.
Proof.
  intros Hid Hget Hfalse Hfunc Hdumps Hset.
  rewrite (wrapper_miss ttl ns func args kwargs st uid cached w1 response w2
             serialized w3 Hid Hget Hfalse Hfunc Hdumps Hset).
  simpl. repeat split.
  replace (trace st ++ [EvGet ns (cache_key ns uid); EvCall args kwargs;
                        EvSet ns (cache_key ns uid) serialized ttl])
    with (((trace st ++ [EvGet ns (cache_key ns uid)]) ++ [EvCall args kwargs])
            ++ [EvSet ns (cache_key ns uid) serialized ttl])
    by (by rewrite <- !List.app_assoc).
  by rewrite handler_calls_set, handler_calls_call, handler_calls_get.
Qed.

(** A handler error on a miss goes through the wrapper as it is, and no
    store write is made. *)
Lemma handler_error_propagates ttl ns func args kwargs st uid cached w1 e w2 :
  identifying_argument args kwargs = Return uid →
  cache_get ns (cache_key ns uid) (world st) = (Return cached, w1) →
  truthy cached = false →
  func args kwargs w1 = (Raise e, w2) →
  wrapper ttl ns func args kwargs st
    = (Raise e, State w2 (trace st ++ [EvGet ns (cache_key ns uid); EvCall args kwargs])).
Proof.
  intros Hid Hget Hfalse Hfunc. run_wrapper.
  rewrite Hid; simpl. rewrite Hget; simpl. rewrite Hfalse; simpl. rewrite Hfunc; simpl.
  by rewrite <- List.app_assoc.
Qed.

(** C4. On a miss where the handler succeeds, [json.dumps] succeeds and
    [store.set] raises [e], the wrapper raises
    [HTTPException(500, "Error caching data: " + str(e))]; the result of
    the handler is not returned. *)
Theorem store_write_failure_is_http_500
    ttl ns func args kwargs st uid cached w1 response w2 serialized e w3 :
  identifying_argument args kwargs = Return uid →
  cache_get ns (cache_key ns uid) (world st) = (Return cached, w1) →
  truthy cached = false →
  func args kwargs w1 = (Return response, w2) →
  json_dumps response = Return serialized →
  cache_set ns (cache_key ns uid) serialized ttl w2 = (Raise e, w3) →
  let '(result, st') := wrapper ttl ns func args kwargs st in
  result = Raise (HTTPException 500 (py "Error caching data: " ++ exn_str e))
  ∧ result ≠ Return response
  ∧ handler_calls (trace st') = S (handler_calls (trace st)).
Proof.
  intros Hid Hget Hfalse Hfunc Hdumps Hset. run_wrapper.
  rewrite Hid; simpl. rewrite Hget; simpl. rewrite Hfalse; simpl. rewrite Hfunc; simpl.
  rewrite Hdumps; simpl. rewrite Hset; simpl.
  repeat split; [done|].
  by rewrite handler_calls_set, handler_calls_call, handler_calls_get.
Qed.

(** [json.dumps] is evaluated inside the same [try]: a result of the handler
    that cannot be serialized ends in the caching error as well, and no
    write is attempted. *)
Lemma serialization_failure_is_http_500
    ttl ns func args kwargs st uid cached w1 response w2 e :
  identifying_argument args kwargs = Return uid →
  cache_get ns (cache_key ns uid) (world st) = (Return cached, w1) →
  truthy cached = false →
  func args kwargs w1 = (Return response, w2) →
  json_dumps response = Raise e →
  wrapper ttl ns func args kwargs st
  = (Raise (HTTPException 500 (py "Error caching data: " ++ exn_str e)),
     State w2 (trace st ++ [EvGet ns (cache_key ns uid); EvCall args kwargs])).
Proof.
  intros Hid Hget Hfalse Hfunc Hdumps. run_wrapper.
  rewrite Hid; simpl. rewrite Hget; simpl. rewrite Hfalse; simpl.
  rewrite Hfunc; simpl. rewrite Hdumps; simpl.
  by rewrite <- List.app_assoc.
Qed.

(** C8. When [store.get] raises [e], the wrapper raises the same [e]: it is
    not caught, not turned into the caching error, and neither the handler
    nor [store.set] is reached. *)
Theorem store_read_failure_propagates ttl ns func args kwargs st uid e w1 :
  identifying_argument args kwargs = Return uid →
  cache_get ns (cache_key ns uid) (world st) = (Raise e, w1) →
  wrapper ttl ns func args kwargs st
    = (Raise e, State w1 (trace st ++ [EvGet ns (cache_key ns uid)])).
Proof.
  intros Hid Hget. run_wrapper. rewrite Hid; simpl. by rewrite Hget.
Qed.

(** C10. When the keyword argument [user_id] is present but falsy, the
    identifying argument is the first positional argument; and when there is
    no positional argument the extraction raises [IndexError], which ends
    the wrapper before any store or handler call. *)
Theorem falsy_keyword_falls_back_to_positional ttl ns func args kwargs st v :
  kwargs !! py "user_id" = Some v →
  truthy v = false →
  match args with
  | a :: _ => identifying_argument args kwargs = Return a
  | [] =>
      identifying_argument args kwargs
        = Raise (Error "IndexError" (py "tuple index out of range"))
      ∧ wrapper ttl ns func args kwargs st
        = (Raise (Error "IndexError" (py "tuple index out of range")), st)
  end.
Proof.
  intros Hkw Hfalse.
  assert (Hid : identifying_argument args kwargs = args_first args).
  { unfold identifying_argument, py_or, kwargs_get. rewrite Hkw. simpl.
    by rewrite Hfalse. }
  destruct args as [|a args]; [|done].
  split; [done|]. run_wrapper. by rewrite Hid.
Qed.

(** C5, as the code has it. The identifying argument is the keyword argument
    [user_id] when that is present and truthy, whatever the positional
    arguments are; when the keyword argument is absent it is the first
    positional argument. *)
Theorem identifying_argument_keyword_first args kwargs :
  (∀ v, kwargs !! py "user_id" = Some v → truthy v = true →
        identifying_argument args kwargs = Return v)
  ∧ (∀ a rest, kwargs !! py "user_id" = None → args = a :: rest →
        identifying_argument args kwargs = Return a).
Proof.
  unfold identifying_argument, py_or, kwargs_get. split.
  - intros v -> Hv. simpl. by rewrite Hv.
  - intros a rest -> ->. done.
Qed.

End WrapperProperties.
(* ===================================================================== *)
(** ** Decimal numerals *)
(* ===================================================================== *)

(** A character of a numeral is a decimal digit. *)
Lemma uint_chars_digits (d : Decimal.uint) :
  Forall (λ c, (48 ≤ c ∧ c ≤ 57)%N) (uint_chars d).
Proof.
  induction d; simpl; constructor; auto; unfold digit_char; lia.
Qed.

Lemma uint_chars_inj (d d' : Decimal.uint) :
  uint_chars d = uint_chars d' → d = d'.
Proof.
  revert d'. induction d; intros [] H; simpl in H; try discriminate H;
    try reflexivity; injection H as H; f_equal; auto.
Qed.

(** The characters of [str(z)]: a minus sign or decimal digits. *)
Lemma int_repr_chars (z : Z) :
  Forall (λ c, (c = 45 ∨ (48 ≤ c ∧ c ≤ 57))%N) (int_repr z).
Proof.
  unfold int_repr. destruct (Z.to_int z) as [d|d].
  - eapply Forall_impl; [apply uint_chars_digits|]. simpl. auto.
  - constructor; [by left|].
    eapply Forall_impl; [apply uint_chars_digits|]. simpl. auto.
Qed.

(** [str] is injective on integers. *)
Lemma int_repr_inj (z z' : Z) : int_repr z = int_repr z' → z = z'.
Proof.
  unfold int_repr. intros H. apply DecimalZ.to_int_inj.
  destruct (Z.to_int z) as [d|d], (Z.to_int z') as [d'|d'].
  - f_equal. by apply uint_chars_inj.
  - pose proof (uint_chars_digits d) as Hd. rewrite H in Hd.
    apply Forall_cons in Hd as [Hd _]. lia.
  - pose proof (uint_chars_digits d') as Hd. rewrite <- H in Hd.
    apply Forall_cons in Hd as [Hd _]. lia.
  - injection H as H. f_equal. by apply uint_chars_inj.
Qed.

(** Splitting at the last colon: when neither tail has a colon, two texts
    with a colon in front of the tail are equal only part by part. *)
Lemma split_at_last_colon (a1 a2 r1 r2 : pystr) :
  58%N ∉ r1 → 58%N ∉ r2 →
  a1 ++ 58%N :: r1 = a2 ++ 58%N :: r2 → a1 = a2 ∧ r1 = r2.
Proof.
  intros H1 H2. revert a2. induction a1 as [|x a1 IH]; intros [|y a2] H; simpl in H.
  - by injection H as ->.
  - injection H as <- ->. exfalso. apply H1. apply elem_of_app. right. by left.
  - injection H as -> <-. exfalso. apply H2. apply elem_of_app. right. by left.
  - injection H as -> H. destruct (IH _ H) as [-> ->]. done.
Qed.

Lemma int_repr_no_colon (z : Z) : 58%N ∉ int_repr z.
Proof.
  intros Hin. pose proof (int_repr_chars z) as H.
  rewrite Forall_forall in H. specialize (H _ Hin). lia.
Qed.

(* ===================================================================== *)
(** ** The cache key *)
(* ===================================================================== *)

Section CacheKey.
Context {W : Type} `{!Collaborators W}.

(** Whatever the handler and the collaborators do, the first thing the
    wrapper does is to read the store under [cache_key namespace user_id]. *)
Lemma wrapper_reads_cache_key ttl ns (func : handler W) args kwargs uid (w : W) :
  identifying_argument args kwargs = Return uid →
  key_read (trace (wrapper ttl ns func args kwargs (State w [])).2)
    = Some (cache_key ns uid).
Proof.
  intros Hid. run_wrapper. rewrite Hid; simpl.
  destruct (cache_get _ _ w) as [[cached|e] w1]; simpl; [|done].
  destruct (truthy cached); simpl; [done|].
  destruct (func args kwargs w1) as [[response|e] w2]; simpl; [|done].
  destruct (json_dumps response) as [serialized|e]; simpl; [|done].
  by destruct (cache_set _ _ serialized ttl w2) as [[[]|e] w3].
Qed.

Lemma cache_key_int_inj ns1 ns2 z1 z2 :
  cache_key ns1 (PInt z1) = cache_key ns2 (PInt z2) → ns1 = ns2 ∧ z1 = z2.
Proof.
  unfold cache_key. intros H.
  change (py_str (PInt z1)) with (int_repr z1) in H.
  change (py_str (PInt z2)) with (int_repr z2) in H.
  assert (Hk : ∀ ns z, ns ++ py ":user:" ++ int_repr z
                       = (ns ++ py ":user") ++ 58%N :: int_repr z).
  { intros ns z. by rewrite <- List.app_assoc. }
  rewrite !Hk in H.
  apply split_at_last_colon in H as [Hns Hz]; try apply int_repr_no_colon.
  split; [by apply app_inv_tail in Hns|by apply int_repr_inj].
Qed.

(** C7, as the code has it. The key the wrapper uses is
    [cache_key namespace user_id] for every handler: the handler is no part
    of it. For integer identifying arguments, two keys are equal exactly
    when the namespaces are equal and the integers are equal. *)
Theorem cache_key_identifies_namespace_and_integer :
  (∀ ttl ns (func : handler W) args kwargs uid (w : W),
     identifying_argument args kwargs = Return uid →
     key_read (trace (wrapper ttl ns func args kwargs (State w [])).2)
       = Some (cache_key ns uid))
  ∧ (∀ ns1 ns2 z1 z2,
       cache_key ns1 (PInt z1) = cache_key ns2 (PInt z2) ↔ ns1 = ns2 ∧ z1 = z2).
Proof.
  split.
  - apply wrapper_reads_cache_key.
  - intros ns1 ns2 z1 z2. split; [apply cache_key_int_inj|].
    by intros [-> ->].
Qed.

End CacheKey.

(* ===================================================================== *)
(** ** [json]: decoding what was encoded *)
(* ===================================================================== *)

Module JsonFacts.
Import Json.
Local Open Scope N_scope.

(** Settles the comparisons of the goal that linear arithmetic decides. *)
Ltac settle_tests :=
  repeat match goal with
  | |- context [(?a =? ?b)%N] =>
      first [ replace (a =? b)%N with true by (symmetry; apply N.eqb_eq; lia)
            | replace (a =? b)%N with false by (symmetry; apply N.eqb_neq; lia) ]
  | |- context [(?a <=? ?b)%N] =>
      first [ replace (a <=? b)%N with true by (symmetry; apply N.leb_le; lia)
            | replace (a <=? b)%N with false by (symmetry; apply N.leb_gt; lia) ]
  | |- context [(?a <? ?b)%N] =>
      first [ replace (a <? b)%N with true by (symmetry; apply N.ltb_lt; lia)
            | replace (a <? b)%N with false by (symmetry; apply N.ltb_ge; lia) ]
  end.

Lemma hex_val_hex_char (d : N) : d < 16 → hex_val (hex_char d) = Some d.
Proof.
  intros H. unfold hex_val, hex_char.
  destruct (d <? 10) eqn:Hd; [apply N.ltb_lt in Hd|apply N.ltb_ge in Hd];
    settle_tests; simpl; f_equal; lia.
Qed.

(** The four digits of [u_escape n] read back as [n]. *)
Lemma hex4_digits (n : N) :
  n < 0x10000 →
  hex4 (hex_char ((n / 4096) mod 16)) (hex_char ((n / 256) mod 16))
       (hex_char ((n / 16) mod 16)) (hex_char (n mod 16)) = Some n.
Proof.
  intros H. unfold hex4.
  rewrite !hex_val_hex_char by (apply N.mod_lt; lia).
  f_equal.
  pose proof (N.div_mod n 16 ltac:(lia)) as E0.
  pose proof (N.mod_lt n 16 ltac:(lia)).
  pose proof (N.div_mod (n / 16) 16 ltac:(lia)) as E1.
  pose proof (N.mod_lt (n / 16) 16 ltac:(lia)).
  pose proof (N.div_mod (n / 16 / 16) 16 ltac:(lia)) as E2.
  pose proof (N.mod_lt (n / 16 / 16) 16 ltac:(lia)).
  assert (n / 16 / 16 / 16 < 16) as H3.
  { rewrite !N.Div0.div_div. apply N.Div0.div_lt_upper_bound. lia. }
  rewrite (N.mod_small (n / 4096) 16) by (change 4096 with (16 * 16 * 16); rewrite <- !N.Div0.div_div; lia).
  change 4096 with (16 * 16 * 16). change 256 with (16 * 16).
  rewrite <- !N.Div0.div_div. lia.
Qed.

(** [(a << k) | b] is [a * 2^k + b] when [b] fits in [k] bits. *)
Lemma lor_shiftl_small (a b k : N) :
  b < 2 ^ k → N.lor (N.shiftl a k) b = a * 2 ^ k + b.
Proof.
  intros Hb.
  assert (Hland : N.land (N.shiftl a k) b = 0).
  { apply N.bits_inj_0. intros i. rewrite N.land_spec.
    destruct (N.lt_ge_cases i k) as [Hi|Hi].
    - by rewrite N.shiftl_spec_low.
    - rewrite <- (N.mod_small b (2 ^ k)) by done.
      rewrite N.mod_pow2_bits_high by done. apply andb_false_r. }
  rewrite <- N.lxor_lor by done.
  rewrite <- N.add_nocarry_lxor by done.
  by rewrite N.shiftl_mul_pow2.
Qed.

Lemma high_surrogate_value (n : N) :
  n < 0x100000 →
  N.lor 0xd800 (N.land (N.shiftr n 10) 0x3ff) = 0xd800 + n / 1024.
Proof.
  intros Hn. change 0x3ff with (N.ones 10).
  rewrite N.land_ones, N.shiftr_div_pow2. change (2 ^ 10) with 1024.
  assert (n / 1024 < 1024) by (apply N.Div0.div_lt_upper_bound; lia).
  rewrite N.mod_small by done.
  change 0xd800 with (N.shiftl 54 10) at 1.
  rewrite lor_shiftl_small by (change (2 ^ 10) with 1024; lia). lia.
Qed.

Lemma low_surrogate_value (n : N) :
  N.lor 0xdc00 (N.land n 0x3ff) = 0xdc00 + n mod 1024.
Proof.
  change 0x3ff with (N.ones 10). rewrite N.land_ones. change (2 ^ 10) with 1024.
  pose proof (N.mod_lt n 1024 ltac:(lia)).
  change 0xdc00 with (N.shiftl 55 10) at 1.
  rewrite lor_shiftl_small by (change (2 ^ 10) with 1024; lia). lia.
Qed.

(** The pair of surrogates of a character beyond the basic plane combines
    back into the character. *)
Lemma surrogates_combine (hi lo : N) :
  lo < 1024 →
  0x10000 + N.lor (N.shiftl (0xd800 + hi - 0xd800) 10) (0xdc00 + lo - 0xdc00)
    = 0x10000 + (hi * 1024 + lo).
Proof.
  intros Hlo. replace (0xd800 + hi - 0xd800) with hi by lia.
  replace (0xdc00 + lo - 0xdc00) with lo by lia.
  by rewrite lor_shiftl_small.
Qed.

(** Decoding the escape of one character gives the character back, whatever
    follows. *)
Lemma scanstring_encode_char (c : N) (rest : pystr) :
  is_scalar c →
  scanstring (encode_char c ++ rest) = cons_char c (scanstring rest).
Proof.
  intros Hc. unfold encode_char, QUOTE, BACKSLASH.
  destruct (c =? 34) eqn:E1; [apply N.eqb_eq in E1 as ->; reflexivity|].
  destruct (c =? 92) eqn:E2; [apply N.eqb_eq in E2 as ->; reflexivity|].
  destruct (c =? 10) eqn:E3; [apply N.eqb_eq in E3 as ->; reflexivity|].
  destruct (c =? 13) eqn:E4; [apply N.eqb_eq in E4 as ->; reflexivity|].
  destruct (c =? 9) eqn:E5; [apply N.eqb_eq in E5 as ->; reflexivity|].
  destruct (c =? 8) eqn:E6; [apply N.eqb_eq in E6 as ->; reflexivity|].
  destruct (c =? 12) eqn:E7; [apply N.eqb_eq in E7 as ->; reflexivity|].
  apply N.eqb_neq in E1, E2.
  destruct ((32 <=? c) && (c <=? 126)) eqn:E8.
  - apply andb_true_iff in E8 as [Hlo Hhi]. apply N.leb_le in Hlo, Hhi.
    simpl. unfold QUOTE, BACKSLASH. settle_tests. reflexivity.
  - destruct (c <? 0x10000) eqn:E9.
    + apply N.ltb_lt in E9. unfold u_escape, BACKSLASH. simpl.
      rewrite hex4_digits by done.
      unfold QUOTE, BACKSLASH, is_high_surrogate.
      assert (Hns : (0xd800 <=? c) && (c <=? 0xdbff) = false).
      { destruct Hc as [Hc|[Hc _]].
        - apply andb_false_iff. left. apply N.leb_gt. lia.
        - apply andb_false_iff. right. apply N.leb_gt. lia. }
      by rewrite Hns.
    + apply N.ltb_ge in E9. destruct Hc as [Hc|[_ Hc]]; [lia|].
      set (n := c - 0x10000). assert (Hn : n < 0x100000) by lia.
      cbv zeta. rewrite high_surrogate_value, low_surrogate_value by done.
      pose proof (N.mod_lt n 1024 ltac:(lia)) as Hlo.
      assert (Hhi : n / 1024 < 1024) by (apply N.Div0.div_lt_upper_bound; lia).
      pose proof (N.div_mod n 1024 ltac:(lia)) as Hdm.
      set (q := n / 1024) in *. set (r := n mod 1024) in *.
      clearbody q r.
      unfold u_escape, BACKSLASH. simpl.
      rewrite !hex4_digits by lia.
      unfold is_high_surrogate, is_low_surrogate. settle_tests. simpl.
      rewrite surrogates_combine by done.
      replace (65536 + (q * 1024 + r)) with c by lia. done.
Qed.

(** Decoding an encoded string, up to its closing quote. *)
Lemma scanstring_encoded (s rest : pystr) :
  Forall is_scalar s →
  scanstring (flat_map encode_char s ++ QUOTE :: rest) = Some (s, rest).
Proof.
  induction 1 as [|c s Hc _ IH]; [reflexivity|].
  simpl. rewrite <- List.app_assoc, scanstring_encode_char by done.
  by rewrite IH.
Qed.

(** *** Numbers *)

Lemma scan_digits_uint (d : Decimal.uint) (c : N) (rest : pystr) :
  is_digit c = false →
  scan_digits (uint_chars d ++ c :: rest) = (d, c :: rest).
Proof.
  intros Hc. induction d; simpl; rewrite ?IHd, ?Hc; reflexivity.
Qed.

Lemma nzhead_no_leading_zero (d d' : Decimal.uint) :
  Decimal.nzhead d ≠ Decimal.D0 d'.
Proof. induction d; simpl; try discriminate; done. Qed.

(** The numeral of a positive number does not start with [0]. *)
Lemma pos_to_uint_head (p : positive) :
  match Pos.to_uint p with
  | Decimal.Nil | Decimal.D0 _ => False
  | _ => True
  end.
Proof.
  pose proof (DecimalPos.Unsigned.to_of (Pos.to_uint p)) as H.
  rewrite DecimalPos.Unsigned.of_to in H. simpl in H.
  pose proof (DecimalPos.Unsigned.to_uint_nonzero p) as Hnz.
  destruct (Pos.to_uint p) as [|d| | | | | | | | |] eqn:E; try done.
  unfold Decimal.unorm in H. simpl in H.
  destruct (Decimal.nzhead d) eqn:En; try discriminate H.
  - by rewrite H in Hnz.
  - by apply (nzhead_no_leading_zero d u).
Qed.

(** What may follow a number in a document: a comma or a closing brace
    ends it. *)
Lemma ends_number (c : N) (rest : pystr) :
  c = COMMA ∨ c = RBRACE →
  is_digit c = false ∧ float_tail (c :: rest) = false.
Proof. intros [-> | ->]; split; try reflexivity; by destruct rest. Qed.

Lemma scan_number_pos (p : positive) (c : N) (rest : pystr) :
  c = COMMA ∨ c = RBRACE →
  scan_number (uint_chars (Pos.to_uint p) ++ c :: rest) = Some (Z.pos p, c :: rest)
  ∧ scan_number (MINUS :: uint_chars (Pos.to_uint p) ++ c :: rest)
    = Some (Z.neg p, c :: rest).
Proof.
  intros Hc. destruct (ends_number c rest Hc) as [Hd Hf].
  pose proof (pos_to_uint_head p) as Hhead.
  pose proof (DecimalPos.Unsigned.of_to p) as Hp.
  pose proof (scan_digits_uint (Pos.to_uint p) c rest Hd) as Hscan.
  assert (Hval : Z.of_uint (Pos.to_uint p) = Z.pos p).
  { unfold Z.of_uint. by rewrite Hp. }
  unfold scan_number.
  destruct (Pos.to_uint p) as [|d|d|d|d|d|d|d|d|d|d]; try done;
    simpl uint_chars in *; unfold digit_char, MINUS in *; simpl N.add in *;
    simpl app in *; cbv beta iota; simpl N.eqb; cbv beta iota;
    simpl is_digit; cbv beta iota; rewrite Hscan, Hf, Hval; done.
Qed.

(** [int(str(z))] at the head of a text. *)
Lemma scan_number_int_repr (z : Z) (c : N) (rest : pystr) :
  c = COMMA ∨ c = RBRACE →
  scan_number (int_repr z ++ c :: rest) = Some (z, c :: rest).
Proof.
  intros Hc. destruct z as [|p|p].
  - destruct Hc as [-> | ->]; destruct rest; reflexivity.
  - apply (scan_number_pos p c rest Hc).
  - apply (scan_number_pos p c rest Hc).
Qed.


(** *** Values *)

Lemma scan_once_string (fuel : nat) (s rest : pystr) :
  Forall is_scalar s →
  scan_once (S fuel) (encode_basestring_ascii s ++ rest) = Some (PStr s, rest).
Proof.
  intros Hs. unfold encode_basestring_ascii.
  change ((QUOTE :: flat_map encode_char s ++ [QUOTE]) ++ rest)
    with (QUOTE :: (flat_map encode_char s ++ [QUOTE]) ++ rest).
  rewrite <- List.app_assoc. simpl.
  by rewrite (scanstring_encoded s rest Hs).
Qed.

Lemma scan_once_int (fuel : nat) (z : Z) (c : N) (rest : pystr) :
  c = COMMA ∨ c = RBRACE →
  scan_once (S fuel) (int_repr z ++ c :: rest) = Some (PInt z, c :: rest).
Proof.
  intros Hc. pose proof (scan_number_int_repr z c rest Hc) as Hn.
  pose proof (int_repr_chars z) as Hchars.
  destruct (int_repr z) as [|c0 tl].
  - destruct Hc as [-> | ->]; discriminate Hn.
  - apply Forall_cons in Hchars as [Hc0 _]. simpl app in *.
    cbn -[scan_number strip_prefix py].
    unfold QUOTE, LBRACE, LBRACKET. settle_tests.
    assert (Hlit : ∀ x lit s, x ≠ c0 → strip_prefix (x :: lit) (c0 :: s) = None).
    { intros x lit s Hx. simpl. by apply N.eqb_neq in Hx as ->. }
    change (py "null") with (110 :: py "ull").
    change (py "true") with (116 :: py "rue").
    change (py "false") with (102 :: py "alse").
    rewrite !Hlit by lia. by rewrite Hn.
Qed.


(** [str(z)] starts with a minus sign or a digit. *)
Lemma int_repr_head (z : Z) :
  ∃ c0 tl, int_repr z = c0 :: tl ∧ (c0 = 45 ∨ (48 ≤ c0 ∧ c0 ≤ 57)).
Proof.
  pose proof (int_repr_chars z) as Hchars.
  destruct (int_repr z) as [|c0 tl] eqn:E.
  - exfalso. unfold int_repr in E. destruct z as [|p|p]; simpl in E; try discriminate E.
    pose proof (DecimalPos.Unsigned.to_uint_nonnil p) as Hnn.
    by destruct (Pos.to_uint p).
  - apply Forall_cons in Hchars as [Hc0 _]. by exists c0, tl.
Qed.

Lemma skip_ws_int_repr (z : Z) (rest : pystr) :
  skip_ws (int_repr z ++ rest) = int_repr z ++ rest.
Proof.
  destruct (int_repr_head z) as (c0 & tl & -> & Hc0). simpl.
  unfold is_ws. settle_tests. done.
Qed.

(** One [key: value] member of an object, when the decoder reads the text
    of the value back as [v]: at a closing brace the object ends, at a
    comma the next member follows. *)
Lemma object_members_pair (fuel : nat) (key vtext : pystr) (v : pyval)
    (c : N) (rest : pystr) :
  Forall is_scalar key →
  c = COMMA ∨ c = RBRACE →
  skip_ws (vtext ++ c :: rest) = vtext ++ c :: rest →
  scan_once fuel (vtext ++ c :: rest) = Some (v, c :: rest) →
  object_members (S fuel)
    (flat_map encode_char key ++ QUOTE :: py ": " ++ vtext ++ c :: rest)
  = if c =? RBRACE then Some ([(key, v)], rest)
    else
      match skip_ws rest with
      | c3 :: r4 =>
          if c3 =? QUOTE then
            match object_members fuel r4 with
            | Some (pairs, r5) => Some ((key, v) :: pairs, r5)
            | None => None
            end
          else None
      | [] => None
      end.
Proof.
  intros Hkey Hc Hws Hscan.
  cbn -[scanstring skip_ws scan_once py N.eqb].
  rewrite (scanstring_encoded key _ Hkey).
  change (skip_ws (py ": " ++ vtext ++ c :: rest))
    with (COLON :: 32 :: vtext ++ c :: rest).
  cbn -[scanstring skip_ws scan_once py N.eqb].
  change (COLON =? COLON) with true. cbv iota.
  change (skip_ws (32 :: vtext ++ c :: rest)) with (skip_ws (vtext ++ c :: rest)).
  rewrite Hws, Hscan.
  destruct Hc as [-> | ->]; reflexivity.
Qed.

Lemma object_members_last (fuel : nat) (key vtext : pystr) (v : pyval)
    (rest : pystr) :
  Forall is_scalar key →
  skip_ws (vtext ++ RBRACE :: rest) = vtext ++ RBRACE :: rest →
  scan_once fuel (vtext ++ RBRACE :: rest) = Some (v, RBRACE :: rest) →
  object_members (S fuel)
    (flat_map encode_char key ++ QUOTE :: py ": " ++ vtext ++ RBRACE :: rest)
  = Some ([(key, v)], rest).
Proof.
  intros Hkey Hws Hscan.
  by rewrite (object_members_pair fuel key vtext v RBRACE rest Hkey (or_intror eq_refl) Hws Hscan).
Qed.

Lemma object_members_more (fuel : nat) (key vtext : pystr) (v : pyval)
    (rest : pystr) :
  Forall is_scalar key →
  skip_ws (vtext ++ COMMA :: 32 :: QUOTE :: rest) = vtext ++ COMMA :: 32 :: QUOTE :: rest →
  scan_once fuel (vtext ++ COMMA :: 32 :: QUOTE :: rest)
    = Some (v, COMMA :: 32 :: QUOTE :: rest) →
  object_members (S fuel)
    (flat_map encode_char key ++ QUOTE :: py ": " ++ vtext
       ++ COMMA :: 32 :: QUOTE :: rest)
  = match object_members fuel rest with
    | Some (pairs, r) => Some ((key, v) :: pairs, r)
    | None => None
    end.
Proof.
  intros Hkey Hws Hscan.
  by rewrite (object_members_pair fuel key vtext v COMMA _ Hkey (or_introl eq_refl) Hws Hscan).
Qed.

Lemma scan_once_object (fuel : nat) (text : pystr) :
  scan_once (S fuel) (LBRACE :: QUOTE :: text)
  = match object_members fuel text with
    | Some (pairs, r) => Some (PDict (dict_of_pairs pairs), r)
    | None => None
    end.
Proof. reflexivity. Qed.

(** The encoding of a user's dictionary, member by member. *)
Lemma encode_user_dict (u : User) :
  encode (user_dict u)
  = LBRACE :: QUOTE ::
      (flat_map encode_char (py "id") ++ QUOTE :: py ": " ++ int_repr (user_id_ u) ++
       COMMA :: 32 :: QUOTE ::
      (flat_map encode_char (py "name") ++ QUOTE :: py ": "
         ++ encode_basestring_ascii (user_name u) ++
       COMMA :: 32 :: QUOTE ::
      (flat_map encode_char (py "email") ++ QUOTE :: py ": "
         ++ encode_basestring_ascii (user_email u) ++
       COMMA :: 32 :: QUOTE ::
      (flat_map encode_char (py "age") ++ QUOTE :: py ": " ++ int_repr (user_age u) ++
       [RBRACE])))).
Proof.
  unfold user_dict, encode, encode_basestring_ascii. simpl.
  repeat (rewrite <- List.app_assoc; simpl). reflexivity.
Qed.

Lemma ascii_literal_scalar (s : string) : Forall is_scalar (py s).
Proof.
  unfold py. induction (list_ascii_of_string s) as [|a l IH]; constructor; [|done].
  left. pose proof (N_ascii_bounded a). lia.
Qed.

(** [json.loads(json.dumps(d)) == d] for the dictionary of a user whose
    name and email are Unicode text. *)
Lemma decode_encode_user_dict (u : User) :
  Forall is_scalar (user_name u) → Forall is_scalar (user_email u) →
  decode (encode (user_dict u)) = Some (user_dict u).
Proof.
  intros Hname Hemail. unfold decode. rewrite encode_user_dict.
  match goal with
  | |- context [List.length (LBRACE :: QUOTE :: ?t)] =>
      assert (Hlen : ∃ n, List.length (LBRACE :: QUOTE :: t) = S (S (S (S (S n)))))
        by (simpl; eauto);
      destruct Hlen as [n ->];
      change (skip_ws (LBRACE :: QUOTE :: t)) with (LBRACE :: QUOTE :: t)
  end.
  rewrite scan_once_object.
  rewrite (object_members_more _ (py "id") _ (PInt (user_id_ u)));
    [|apply ascii_literal_scalar|apply skip_ws_int_repr|by apply scan_once_int; left].
  rewrite (object_members_more _ (py "name") _ (PStr (user_name u)));
    [|apply ascii_literal_scalar|reflexivity|by apply scan_once_string].
  rewrite (object_members_more _ (py "email") _ (PStr (user_email u)));
    [|apply ascii_literal_scalar|reflexivity|by apply scan_once_string].
  rewrite (object_members_last _ (py "age") _ (PInt (user_age u)));
    [|apply ascii_literal_scalar|apply skip_ws_int_repr|by apply scan_once_int; right].
  reflexivity.
Qed.
(** The hypothesis on the text is needed: a high surrogate followed by a
    low surrogate, as two characters of a [str], is written as two escapes
    and read back as one character. *)
Lemma surrogate_pair_is_merged :
  loads (PStr (encode (PStr [0xd83d; 0xde00]))) = Return (PStr [0x1f600]).
Proof. reflexivity. Qed.

End JsonFacts.

(* ===================================================================== *)
(** ** app.py: the handler and the route *)
(* ===================================================================== *)

(** The three records of [users_db]. *)
Lemma users_db_lookup (z : Z) (record : pyval) :
  users_db !! z = Some record →
  ∃ u, record = user_dict u
       ∧ Forall is_scalar (user_name u) ∧ Forall is_scalar (user_email u)
       ∧ z ≠ 0.
Proof.
  unfold users_db. rewrite !lookup_insert_Some, lookup_singleton_Some.
  intros [[<- <-]|[_ [[<- <-]|[_ [<- <-]]]]];
    eexists (mkUser _ _ _ _); (split; [reflexivity|]); simpl;
    repeat split; try apply JsonFacts.ascii_literal_scalar; done.
Qed.

(** A record of [users_db] is a non-empty dictionary. *)
Lemma users_db_truthy (z : Z) (record : pyval) :
  users_db !! z = Some record → truthy record = true.
Proof. intros H. by destruct (users_db_lookup z record H) as (u & -> & _). Qed.

(** Binding the call [f(user_id=v)] and the call [f(v)]. *)
Lemma bind_user_id_keyword fname (v : pyval) :
  bind_user_id fname [] (by_keyword v) = Return v.
Proof.
  unfold bind_user_id, by_keyword.
  by rewrite delete_singleton_eq, map_to_list_empty, lookup_singleton_eq.
Qed.

Lemma bind_user_id_positional fname (v : pyval) :
  bind_user_id fname [v] ∅ = Return v.
Proof.
  unfold bind_user_id. by rewrite delete_empty, map_to_list_empty, lookup_empty.
Qed.

(** The handler on an integer identifier, called either way: the record, or
    the not-found error when the table has none. *)
Lemma get_user_details_int {W : Type} (z : Z) (w : W) args kwargs :
  (args = [] ∧ kwargs = by_keyword (PInt z)) ∨ (args = [PInt z] ∧ kwargs = ∅) →
  get_user_details args kwargs w
  = (match users_db !! z with
     | Some record => Return record
     | None => Raise (HTTPException 404 (py "User not found"))
     end, w).
Proof.
  intros [[-> ->]|[-> ->]]; unfold get_user_details;
    rewrite ?bind_user_id_keyword, ?bind_user_id_positional;
    unfold get_user_details_body; simpl;
    destruct (users_db !! z) as [record|] eqn:E; simpl; try done;
    by rewrite (users_db_truthy z record E).
Qed.

(** The identifying argument of the call the route makes. *)
Lemma identifying_argument_keyword_int (z : Z) :
  z ≠ 0 → identifying_argument [] (by_keyword (PInt z)) = Return (PInt z).
Proof.
  intros Hz. unfold identifying_argument, py_or, kwargs_get, by_keyword.
  rewrite lookup_singleton_eq. simpl.
  by apply Z.eqb_neq in Hz as ->.
Qed.

Lemma identifying_argument_keyword_zero :
  identifying_argument [] (by_keyword (PInt 0))
  = Raise (Error "IndexError" (py "tuple index out of range")).
Proof.
  unfold identifying_argument, py_or, kwargs_get, by_keyword.
  by rewrite lookup_singleton_eq.
Qed.

Lemma users_key_inj (z z' : Z) : users_key z = users_key z' → z = z'.
Proof.
  unfold users_key, build_key, cache_key. intros H.
  do 4 apply app_inv_head in H. by apply int_repr_inj.
Qed.

(** An encoding is never the empty text: what the wrapper stores is truthy
    when read back. *)
Lemma encode_user_dict_truthy (u : User) :
  truthy (PStr (Json.encode (user_dict u))) = true.
Proof. by rewrite JsonFacts.encode_user_dict. Qed.

(** The outcome of the route in terms of the wrapper. *)
Lemma get_users_route_unfold {W : Type} `{!Collaborators W} (z : Z) (st : state W) :
  get_users_route z st
  = (http_response
       (wrapper 120 (py "users") get_user_details [] (by_keyword (PInt z)) st).1,
     (wrapper 120 (py "users") get_user_details [] (by_keyword (PInt z)) st).2).
Proof.
  unfold get_users_route, cache_response, by_keyword. simpl.
  by destruct (wrapper _ _ _ _ _ st).
Qed.

(** The route on a store that is up and holds only what the route writes:
    identifier [0] ends in the server error, an identifier of [users_db]
    gives its record, any other identifier the not-found response; and the
    store is again as described. *)
Lemma route_on_ok_store (z : Z) (st : state redis) :
  store_ok (world st) →
  (get_users_route z st).1
  = (if bool_decide (z = 0) then (500, TextBody (py "Internal Server Error"))
     else match users_db !! z with
          | Some record => (200, JsonBody record)
          | None => (404, JsonBody (PDict [(py "detail", PStr (py "User not found"))]))
          end)
  ∧ store_ok (world (get_users_route z st).2).
Proof.
  destruct st as [[r wr ents] t]. intros (Hr & Hw & Hent); simpl in *; subst.
  rewrite get_users_route_unfold. case_bool_decide as Hz.
  - subst z.
    rewrite (wrapper_no_identifying_argument _ _ _ _ _ _ _
               identifying_argument_keyword_zero).
    by repeat split.
  - pose proof (identifying_argument_keyword_int z Hz) as Hid.
    destruct (ents !! users_key z) as [[value ttl]|] eqn:E.
    + destruct (Hent z value ttl E) as (record & Hdb & ->).
      destruct (users_db_lookup z record Hdb) as (u & -> & Hname & Hemail & _).
      rewrite (wrapper_hit 120 (py "users") get_user_details [] (by_keyword (PInt z))
                 (State (Redis true true ents) t) (PInt z)
                 (PStr (Json.encode (user_dict u))) (Redis true true ents) Hid).
      * assert (Hloads : json_loads (PStr (Json.encode (user_dict u)))
                         = Return (user_dict u)).
        { change json_loads with Json.loads. unfold Json.loads.
          by rewrite (JsonFacts.decode_encode_user_dict u Hname Hemail). }
        cbn [fst snd]. rewrite Hloads, Hdb. by repeat split.
      * simpl. unfold redis_get. simpl.
        change (build_key _ _) with (users_key z). by rewrite E.
      * apply encode_user_dict_truthy.
    + assert (Hget : cache_get (py "users") (cache_key (py "users") (PInt z))
                       (Redis true true ents) = (Return PNone, Redis true true ents)).
      { simpl. unfold redis_get. simpl.
        change (build_key _ _) with (users_key z). by rewrite E. }
      pose proof (get_user_details_int z (Redis true true ents) [] (by_keyword (PInt z))
                    (or_introl (conj eq_refl eq_refl))) as Hfunc.
      destruct (users_db !! z) as [record|] eqn:Hdb.
      * rewrite (wrapper_miss 120 (py "users") get_user_details [] (by_keyword (PInt z))
                   (State (Redis true true ents) t) (PInt z)
                   PNone _ record _ (Json.encode record)
                   (Redis true true (<[users_key z := (Json.encode record, 120)]> ents))
                   Hid Hget eq_refl Hfunc eq_refl eq_refl).
        simpl. repeat split. intros z' value ttl. cbn [entries].
        rewrite lookup_insert_Some. intros [[Hk [= <- <-]]|[_ Hold]].
        -- apply users_key_inj in Hk as <-. by exists record.
        -- by apply (Hent z' value ttl).
      * rewrite (handler_error_propagates 120 (py "users") get_user_details []
                   (by_keyword (PInt z)) (State (Redis true true ents) t)
                   (PInt z) PNone _ _ _ Hid Hget eq_refl Hfunc).
        by repeat split.
Qed.

(** Any sequence of requests on such a store is answered request by
    request in this way. *)
Lemma serve_on_ok_store (ids : list Z) (st : state redis) :
  store_ok (world st) →
  (serve ids st).1
  = List.map
      (λ z, if bool_decide (z = 0) then (500, TextBody (py "Internal Server Error"))
            else match users_db !! z with
                 | Some record => (200, JsonBody record)
                 | None =>
                     (404, JsonBody (PDict [(py "detail", PStr (py "User not found"))]))
                 end) ids
  ∧ store_ok (world (serve ids st).2).
Proof.
  revert st. induction ids as [|z ids IH]; intros st Hok; [done|].
  destruct (route_on_ok_store z st Hok) as [Hr Hok1]. cbn [serve List.map].
  destruct (get_users_route z st) as [r st1]. cbn [fst snd] in Hr, Hok1.
  destruct (IH st1 Hok1) as [Hrs Hok2].
  destruct (serve ids st1) as [rs st2]. cbn [fst snd] in *.
  by rewrite Hr, Hrs.
Qed.

(** The store the route starts from. *)
Lemma empty_redis_ok : store_ok empty_redis.
Proof.
  repeat split. intros z value ttl H. unfold empty_redis in H. cbn [entries] in H.
  by rewrite lookup_empty in H.
Qed.

(** C6. On a store that is up and holds only what the route writes (the
    empty store, and every store the route leaves behind), a request for
    identifier [1] is answered with status 200 and the record of Manas, and
    a request for identifier [99] with status 404 and the body
    [{"detail": "User not found"}]. *)
Theorem route_returns_record_or_not_found (st : state redis) :
  store_ok (world st) →
  (get_users_route 1 st).1
    = (200, JsonBody (PDict [ (py "id", PInt 1);
                              (py "name", PStr (py "Manas"));
                              (py "email", PStr (py "manas@example.com"));
                              (py "age", PInt 25) ]))
  ∧ (get_users_route 99 st).1
    = (404, JsonBody (PDict [(py "detail", PStr (py "User not found"))]))
  ∧ store_ok (world (get_users_route 1 st).2)
  ∧ store_ok (world (get_users_route 99 st).2).
Proof.
  intros Hok.
  destruct (route_on_ok_store 1 st Hok) as [H1 Hok1].
  destruct (route_on_ok_store 99 st Hok) as [H99 Hok99].
  split; [|split; [|split]]; [| |done|done].
  - rewrite H1. reflexivity.
  - rewrite H99. reflexivity.
Qed.

(** C3 at the identifier [0]. The handler itself answers a call for user
    [0] with the not-found error, but the decorated handler, called by
    keyword as the route calls it, raises [IndexError] before the store or
    the handler is reached, and the route answers with the server error. *)
Theorem missing_user_zero_raises_index_error {W : Type} `{!Collaborators W}
    (st : state W) :
  get_user_details [] (by_keyword (PInt 0)) (world st)
    = (Raise (HTTPException 404 (py "User not found")), world st)
  ∧ cache_response (Some 120) (Some (py "users")) get_user_details
      [] (by_keyword (PInt 0)) st
    = (Raise (Error "IndexError" (py "tuple index out of range")), st)
  ∧ (get_users_route 0 st).1 = (500, TextBody (py "Internal Server Error")).
Proof.
  split; [|split].
  - by rewrite (get_user_details_int 0 (world st) [] (by_keyword (PInt 0))
                  (or_introl (conj eq_refl eq_refl))).
  - apply wrapper_no_identifying_argument, identifying_argument_keyword_zero.
  - rewrite get_users_route_unfold.
    by rewrite (wrapper_no_identifying_argument _ _ _ _ _ _ _
                  identifying_argument_keyword_zero).
Qed.

(** For an identifier without a record that reaches the handler (any
    non-zero one by keyword, any one positionally), a miss ends in the
    not-found error of the handler, and the store is not written. *)
Lemma unknown_user_not_found {W : Type} `{!Collaborators W}
    ttl ns args kwargs (st : state W) (z : Z) cached w1 :
  (args = [] ∧ kwargs = by_keyword (PInt z) ∧ z ≠ 0) ∨ (args = [PInt z] ∧ kwargs = ∅) →
  users_db !! z = None →
  cache_get ns (cache_key ns (PInt z)) (world st) = (Return cached, w1) →
  truthy cached = false →
  wrapper ttl ns get_user_details args kwargs st
  = (Raise (HTTPException 404 (py "User not found")),
     State w1 (trace st ++ [EvGet ns (cache_key ns (PInt z)); EvCall args kwargs])).
Proof.
  intros Hcall Hdb Hget Hfalse.
  apply (handler_error_propagates ttl ns get_user_details args kwargs st (PInt z)
           cached w1 _ w1); try done.
  - destruct Hcall as [(-> & -> & Hz)|[-> ->]].
    + by apply identifying_argument_keyword_int.
    + done.
  - rewrite (get_user_details_int z w1 args kwargs); [by rewrite Hdb|].
    destruct Hcall as [(-> & -> & _)|[-> ->]]; auto.
Qed.

(** C9. Serializing the dictionary of a user with [json.dumps], storing the
    text and deserializing what the store returns with [json.loads] gives a
    dictionary equal to the original, field by field, whenever the name and
    the email are Unicode text (no surrogate code points). The records of
    [users_db], which are what the handler returns, are of this kind. *)
Theorem user_record_round_trips (u : User) (w : redis) (ns key : pystr) (ttl : Z) :
  Forall is_scalar (user_name u) → Forall is_scalar (user_email u) →
  reads_ok w = true → writes_ok w = true →
  ∃ stored w' cached,
    json_dumps (user_dict u) = Return stored
    ∧ cache_set ns key stored ttl w = (Return (), w')
    ∧ (cache_get ns key w').1 = Return cached
    ∧ json_loads cached = Return (user_dict u).
Proof.
  intros Hname Hemail Hr Hw. destruct w as [r wr ents]; simpl in *; subst.
  eexists (Json.encode (user_dict u)), _, (PStr (Json.encode (user_dict u))).
  repeat split.
  - unfold redis_get; simpl. by rewrite lookup_insert_eq.
  - change json_loads with Json.loads. unfold Json.loads.
    by rewrite (JsonFacts.decode_encode_user_dict u Hname Hemail).
Qed.

(* ===================================================================== *)
(** ** Where the specification and the code part *)
(* ===================================================================== *)

(** C5, as stated, fails: with the positional argument [1] and the keyword
    argument [user_id=2] both present, the identifying argument is the
    keyword argument, not the first positional one, and the key is built
    from it. *)
Lemma keyword_wins_over_positional :
  args_first [PInt 1] = Return (PInt 1)
  ∧ identifying_argument [PInt 1] (by_keyword (PInt 2)) = Return (PInt 2)
  ∧ identifying_argument [PInt 1] (by_keyword (PInt 2)) ≠ args_first [PInt 1]
  ∧ key_read (trace (wrapper 120 (py "users") get_user_details
                       [PInt 1] (by_keyword (PInt 2)) (State empty_redis [])).2)
    = Some (py "users:user:2").
Proof. repeat split; try (vm_compute; reflexivity). vm_compute. discriminate. Qed.

(** C7, as stated, fails: two different handlers decorated with the same
    (here the default) namespace read and write the same key for the same
    argument, so that the second is answered with what the first cached. *)
Lemma distinct_handlers_share_cache_key :
  let st := State empty_redis [] in
  let first := cache_response None None get_user_details [PInt 1] ∅ in
  let second := cache_response None None other_handler [PInt 1] ∅ in
  (get_user_details, PInt 1) ≠ (other_handler, PInt 1)
  ∧ key_read (trace (first st).2) = Some (py "main:user:1")
  ∧ key_read (trace (second st).2) = Some (py "main:user:1")
  ∧ (second (State (world (first st).2) [])).1 = Return manas
  ∧ handler_calls (trace (second (State (world (first st).2) [])).2) = 0%nat.
Proof.
  repeat split; try (vm_compute; reflexivity).
  intros H.
  assert (E : get_user_details [PInt 1] ∅ empty_redis
              = other_handler [PInt 1] ∅ empty_redis).
  { by injection H as ->. }
  vm_compute in E. discriminate E.
Qed.

(* ===================================================================== *)
(** ** The properties at concrete inputs *)
(* ===================================================================== *)

(** C1 on a server that holds the record of user 1: the route's call, and
    the same key asked for twice more, by keyword and positionally. *)
Lemma cache_hit_witness :
  (let '(result, st') :=
     wrapper 120 (py "users") get_user_details [] (by_keyword (PInt 1))
       (State warm_redis []) in
   result = json_loads (PStr (Json.encode manas))
   ∧ st' = State warm_redis ([] ++ [EvGet (py "users") (cache_key (py "users") (PInt 1))])
   ∧ handler_calls (trace st') = handler_calls []
   ∧ store_writes (trace st') = store_writes [])
  ∧ handler_calls
      (trace (run_calls (wrapper 120 (py "users") get_user_details)
                [([], by_keyword (PInt 1)); ([PInt 1], ∅)]
                (State warm_redis [])).2)
    = handler_calls [].
Proof.
  split.
  - apply (proj1 (cache_hit_returns_cached_without_handler (W:=redis))
             120 (py "users") get_user_details [] (by_keyword (PInt 1))
             (State warm_redis []) (PInt 1) (PStr (Json.encode manas)) warm_redis);
      vm_compute; reflexivity.
  - apply (proj2 (cache_hit_returns_cached_without_handler (W:=redis))
             120 (py "users") get_user_details (cache_key (py "users") (PInt 1))
             (λ w, w = warm_redis)
             [([], by_keyword (PInt 1)); ([PInt 1], ∅)] (State warm_redis [])).
    + intros w ->. exists (PStr (Json.encode manas)), warm_redis.
      repeat split; vm_compute; reflexivity.
    + repeat constructor; exists (PInt 1); split; vm_compute; reflexivity.
    + reflexivity.
Defined.

(** C2 on the empty server: the first request for user 1. *)
Lemma cache_miss_witness :
  let '(result, st') :=
    wrapper 120 (py "users") get_user_details [] (by_keyword (PInt 1))
      (State empty_redis []) in
  result = Return manas
  ∧ world st' = warm_redis
  ∧ trace st' = [] ++ [ EvGet (py "users") (cache_key (py "users") (PInt 1));
                        EvCall [] (by_keyword (PInt 1));
                        EvSet (py "users") (cache_key (py "users") (PInt 1))
                          (Json.encode manas) 120 ]
  ∧ handler_calls (trace st') = S (handler_calls [])
  ∧ cache_key (py "users") (PInt 1) = py "users" ++ py ":user:" ++ py_str (PInt 1).
Proof.
  apply (cache_miss_calls_handler_once_and_stores (W:=redis)
           120 (py "users") get_user_details [] (by_keyword (PInt 1))
           (State empty_redis []) (PInt 1) PNone empty_redis manas empty_redis
           (Json.encode manas) warm_redis);
    vm_compute; reflexivity.
Defined.

(** C4 on a server that refuses writes. *)
Lemma store_write_failure_witness :
  let '(result, st') :=
    wrapper 120 (py "users") get_user_details [] (by_keyword (PInt 1))
      (State read_only_redis []) in
  result = Raise (HTTPException 500
                    (py "Error caching data: " ++ exn_str connection_error))
  ∧ result ≠ Return manas
  ∧ handler_calls (trace st') = S (handler_calls []).
Proof.
  apply (store_write_failure_is_http_500 (W:=redis)
           120 (py "users") get_user_details [] (by_keyword (PInt 1))
           (State read_only_redis []) (PInt 1) PNone read_only_redis manas
           read_only_redis (Json.encode manas) connection_error read_only_redis);
    vm_compute; reflexivity.
Defined.

(** C8 on a server that is down. *)
Lemma store_read_failure_witness :
  wrapper 120 (py "users") get_user_details [] (by_keyword (PInt 1))
    (State down_redis [])
  = (Raise connection_error,
     State down_redis ([] ++ [EvGet (py "users") (cache_key (py "users") (PInt 1))])).
Proof.
  apply (store_read_failure_propagates (W:=redis)
           120 (py "users") get_user_details [] (by_keyword (PInt 1))
           (State down_redis []) (PInt 1) connection_error down_redis);
    vm_compute; reflexivity.
Defined.

(** C10 at [user_id=0], without and with a positional argument. *)
Lemma falsy_keyword_witness :
  (identifying_argument [] (by_keyword (PInt 0))
     = Raise (Error "IndexError" (py "tuple index out of range"))
   ∧ wrapper 120 (py "users") get_user_details [] (by_keyword (PInt 0))
       (State empty_redis [])
     = (Raise (Error "IndexError" (py "tuple index out of range")),
        State empty_redis []))
  ∧ identifying_argument [PInt 7] (by_keyword (PInt 0)) = Return (PInt 7).
Proof.
  split.
  - apply (falsy_keyword_falls_back_to_positional (W:=redis)
             120 (py "users") get_user_details [] (by_keyword (PInt 0))
             (State empty_redis []) (PInt 0)); reflexivity.
  - apply (falsy_keyword_falls_back_to_positional (W:=redis)
             120 (py "users") get_user_details [PInt 7] (by_keyword (PInt 0))
             (State empty_redis []) (PInt 0)); reflexivity.
Defined.

(** C5 (as the code has it) with both arguments given, and with the
    positional argument alone. *)
Lemma identifying_argument_witness :
  identifying_argument [PInt 1] (by_keyword (PInt 2)) = Return (PInt 2)
  ∧ identifying_argument [PInt 1] ∅ = Return (PInt 1).
Proof.
  split.
  - apply (proj1 (identifying_argument_keyword_first [PInt 1] (by_keyword (PInt 2))));
      reflexivity.
  - apply (proj2 (identifying_argument_keyword_first [PInt 1] ∅) (PInt 1) []);
      reflexivity.
Defined.

(** C7 (as the code has it) for the second handler, and for two equal
    keys. *)
Lemma cache_key_witness :
  key_read (trace (wrapper 60 (py "main") other_handler [PInt 1] ∅
                     (State empty_redis [])).2)
    = Some (cache_key (py "main") (PInt 1))
  ∧ (py "users" = py "users" ∧ 1 = 1).
Proof.
  split.
  - apply (proj1 (cache_key_identifies_namespace_and_integer (W:=redis))
             60 (py "main") other_handler [PInt 1] ∅ (PInt 1) empty_redis).
    reflexivity.
  - apply (proj1 (proj2 (cache_key_identifies_namespace_and_integer (W:=redis))
                    (py "users") (py "users") 1 1)).
    reflexivity.
Defined.

(** C6 on the empty server. *)
Lemma route_witness :
  (get_users_route 1 (State empty_redis [])).1
    = (200, JsonBody (PDict [ (py "id", PInt 1);
                              (py "name", PStr (py "Manas"));
                              (py "email", PStr (py "manas@example.com"));
                              (py "age", PInt 25) ]))
  ∧ (get_users_route 99 (State empty_redis [])).1
    = (404, JsonBody (PDict [(py "detail", PStr (py "User not found"))]))
  ∧ store_ok (world (get_users_route 1 (State empty_redis [])).2)
  ∧ store_ok (world (get_users_route 99 (State empty_redis [])).2).
Proof.
  apply (route_returns_record_or_not_found (State empty_redis [])).
  apply empty_redis_ok.
Defined.

(** C9 for the record of user 1, stored on the empty server. *)
Lemma round_trip_witness :
  ∃ stored w' cached,
    json_dumps manas = Return stored
    ∧ cache_set (py "users") (cache_key (py "users") (PInt 1)) stored 120 empty_redis
      = (Return (), w')
    ∧ (cache_get (py "users") (cache_key (py "users") (PInt 1)) w').1 = Return cached
    ∧ json_loads cached = Return manas.
Proof.
  apply (user_record_round_trips
           (mkUser 1 (py "Manas") (py "manas@example.com") 25) empty_redis
           (py "users") (cache_key (py "users") (PInt 1)) 120);
    try reflexivity; apply JsonFacts.ascii_literal_scalar.
Defined.

(* ===================================================================== *)
(** ** Further properties of the wrapper *)
(* ===================================================================== *)

Section WrapperFurther.
Context {W : Type} `{!Collaborators W}.
Implicit Types (st : state W) (func : handler W) (ns key : pystr)
  (args : list pyval) (kwargs : gmap pystr pyval).

(** X1. On a miss, an exception raised by the handler leaves the wrapper
    as it is: the wrapper has read the store and called the handler once,
    and has written nothing. *)
Theorem handler_exception_passes_through
    ttl ns func args kwargs st uid cached w1 e w2 :
  identifying_argument args kwargs = Return uid →
  cache_get ns (cache_key ns uid) (world st) = (Return cached, w1) →
  truthy cached = false →
  func args kwargs w1 = (Raise e, w2) →
  let '(result, st') := wrapper ttl ns func args kwargs st in
  result = Raise e
  ∧ world st' = w2
  ∧ trace st' = trace st ++ [EvGet ns (cache_key ns uid); EvCall args kwargs]
  ∧ store_writes (trace st') = store_writes (trace st).
Proof.
  intros Hid Hget Hfalse Hfunc.
  rewrite (handler_error_propagates ttl ns func args kwargs st uid cached w1 e w2
             Hid Hget Hfalse Hfunc).
  cbn [world trace]. repeat split.
  rewrite store_writes_app. simpl. apply List.app_nil_r.
Qed.

(** X2. Whatever the store, the handler and [json] do, one call of the
    wrapper does nothing when the identifying argument cannot be extracted,
    and otherwise makes one store read under the cache key, followed by at
    most one call of the handler with the arguments of the call, followed by
    at most one store write, which is under the key that was read and with
    the [ttl] of the decorator. *)
Theorem wrapper_calls_in_order ttl ns func args kwargs st :
  match identifying_argument args kwargs with
  | Raise e => wrapper ttl ns func args kwargs st = (Raise e, st)
  | Return uid =>
      ∃ added,
        trace (wrapper ttl ns func args kwargs st).2
          = trace st ++ EvGet ns (cache_key ns uid) :: added
        ∧ (added = []
           ∨ added = [EvCall args kwargs]
           ∨ ∃ value, added = [EvCall args kwargs;
                               EvSet ns (cache_key ns uid) value ttl])
  end.
Proof.
  destruct (identifying_argument args kwargs) as [uid|e] eqn:Hid;
    [|by apply wrapper_no_identifying_argument].
  run_wrapper. rewrite Hid; simpl.
  destruct (cache_get _ _ (world st)) as [[cached|e] w1]; simpl;
    [|exists []; auto].
  destruct (truthy cached); simpl; [exists []; auto|].
  destruct (func args kwargs w1) as [[response|e] w2]; simpl;
    [|exists [EvCall args kwargs]; rewrite <- List.app_assoc; auto].
  destruct (json_dumps response) as [serialized|e]; simpl;
    [|exists [EvCall args kwargs]; rewrite <- List.app_assoc; auto].
  destruct (cache_set _ _ serialized ttl w2) as [[[]|e] w3]; simpl;
    (exists [EvCall args kwargs; EvSet ns (cache_key ns uid) serialized ttl];
     rewrite <- !List.app_assoc; split; [done|]; right; right; by exists serialized).
Qed.

(** X3. The extraction of the identifying argument fails exactly when the
    call has no positional argument and its keyword argument [user_id] is
    missing or falsy; the failure is the [IndexError] of [args[0]]. *)
Theorem identifying_argument_fails_iff args kwargs e :
  identifying_argument args kwargs = Raise e
  ↔ args = []
    ∧ (kwargs !! py "user_id" = None
       ∨ ∃ v, kwargs !! py "user_id" = Some v ∧ truthy v = false)
    ∧ e = Error "IndexError" (py "tuple index out of range").
Proof.
  unfold identifying_argument, py_or, kwargs_get, args_first. split.
  - destruct (kwargs !! py "user_id") as [v|] eqn:Hkw; simpl.
    + destruct (truthy v) eqn:Hv; [done|].
      destruct args; [|done]. intros [= <-]. repeat split. right. by exists v.
    + destruct args; [|done]. intros [= <-]. repeat split. by left.
  - intros (-> & [Hkw|(v & Hkw & Hv)] & ->); rewrite Hkw; simpl; [done|].
    by rewrite Hv.
Qed.

(** X4. On a hit the answer depends on the namespace and on the text of
    the identifying argument alone. A call of another decorated handler,
    with another [ttl] and other arguments, is answered in the same way as
    soon as its identifying argument has the same [str()]: further
    arguments do not enter the key, and neither does the type of the
    identifying argument ([1] and ["1"] share their entry). *)
Theorem hit_ignores_everything_but_the_key
    ttl ttl' ns func func' args args' kwargs kwargs' st uid uid' cached w1 :
  identifying_argument args kwargs = Return uid →
  identifying_argument args' kwargs' = Return uid' →
  py_str uid' = py_str uid →
  cache_get ns (cache_key ns uid) (world st) = (Return cached, w1) →
  truthy cached = true →
  wrapper ttl' ns func' args' kwargs' st = wrapper ttl ns func args kwargs st.
Proof.
  intros Hid Hid' Hstr Hget Htrue.
  assert (Hkey : cache_key ns uid' = cache_key ns uid).
  { unfold cache_key. by rewrite Hstr. }
  rewrite (wrapper_hit ttl ns func args kwargs st uid cached w1 Hid Hget Htrue).
  rewrite <- Hkey in Hget |- *.
  by rewrite (wrapper_hit ttl' ns func' args' kwargs' st uid' cached w1 Hid' Hget Htrue).
Qed.

(** X5. A miss followed by the same call. When the store gives back what
    was written ([cached'], truthy) and [json.loads] of it is the response
    of the handler, the second call returns the same response as the first
    and the handler has run once in all. *)
Theorem second_call_is_served_from_the_store
    ttl ns func args kwargs st uid cached w1 response w2 serialized w3 cached' w4 :
  identifying_argument args kwargs = Return uid →
  cache_get ns (cache_key ns uid) (world st) = (Return cached, w1) →
  truthy cached = false →
  func args kwargs w1 = (Return response, w2) →
  json_dumps response = Return serialized →
  cache_set ns (cache_key ns uid) serialized ttl w2 = (Return (), w3) →
  cache_get ns (cache_key ns uid) w3 = (Return cached', w4) →
  truthy cached' = true →
  json_loads cached' = Return response →
  let '(first, st1) := wrapper ttl ns func args kwargs st in
  let '(second, st2) := wrapper ttl ns func args kwargs st1 in
  first = Return response
  ∧ second = Return response
  ∧ world st2 = w4
  ∧ handler_calls (trace st2) = S (handler_calls (trace st))
  ∧ List.length (store_writes (trace st2))
    = S (List.length (store_writes (trace st))).
Proof.
  intros Hid Hget Hfalse Hfunc Hdumps Hset Hget' Htrue Hloads.
  rewrite (wrapper_miss ttl ns func args kwargs st uid cached w1 response w2
             serialized w3 Hid Hget Hfalse Hfunc Hdumps Hset).
  rewrite (wrapper_hit ttl ns func args kwargs
             (State w3 (trace st ++ [ EvGet ns (cache_key ns uid);
                                      EvCall args kwargs;
                                      EvSet ns (cache_key ns uid) serialized ttl ]))
             uid cached' w4 Hid Hget' Htrue).
  rewrite Hloads. simpl. repeat split.
  - rewrite handler_calls_get.
    replace (trace st ++ [EvGet ns (cache_key ns uid); EvCall args kwargs;
                          EvSet ns (cache_key ns uid) serialized ttl])
      with (((trace st ++ [EvGet ns (cache_key ns uid)]) ++ [EvCall args kwargs])
              ++ [EvSet ns (cache_key ns uid) serialized ttl])
      by (by rewrite <- !List.app_assoc).
    by rewrite handler_calls_set, handler_calls_call, handler_calls_get.
  - rewrite !store_writes_app, !List.length_app. simpl. lia.
Qed.

End WrapperFurther.

(* ===================================================================== *)
(** ** Further properties of the handler and the route *)
(* ===================================================================== *)

(** A record of [users_db] carries the identifier it is stored under. *)
Lemma users_db_record_id (z : Z) (record : pyval) :
  users_db !! z = Some record →
  ∃ u, record = user_dict u ∧ user_id_ u = z.
Proof.
  unfold users_db. rewrite !lookup_insert_Some, lookup_singleton_Some.
  intros [[<- <-]|[_ [[<- <-]|[_ [<- <-]]]]]; by eexists (mkUser _ _ _ _).
Qed.

Lemma get_user_details_body_outcomes (user_id : pyval) :
  match get_user_details_body user_id with
  | Return r => ∃ u, r = user_dict u ∧ users_db !! user_id_ u = Some r
  | Raise e =>
      e = HTTPException 404 (py "User not found") ∨ ∃ msg, e = Error "TypeError" msg
  end.
Proof.
  assert (Hint : ∀ z,
    match (if negb (truthy (default PNone (users_db !! z)))
           then Raise (HTTPException 404 (py "User not found"))
           else Return (default PNone (users_db !! z))) with
    | Return r => ∃ u, r = user_dict u ∧ users_db !! user_id_ u = Some r
    | Raise e =>
        e = HTTPException 404 (py "User not found") ∨ ∃ msg, e = Error "TypeError" msg
    end).
  { intros z. destruct (users_db !! z) as [record|] eqn:E; simpl; [|by left].
    rewrite (users_db_truthy z record E). simpl.
    destruct (users_db_record_id z record E) as (u & -> & Hu).
    exists u. by rewrite Hu. }
  unfold get_user_details_body.
  destruct user_id as [|b|z|s|l|d]; simpl; try apply Hint; eauto.
Qed.

(** X6. The handler returns only records of the table, each under its own
    identifier and of the shape of a [User]; the only exception of its body
    is the 404 "User not found" (a call that does not bind [user_id], or an
    unhashable argument, is a [TypeError]); and it leaves the world
    alone. *)
Theorem get_user_details_outcomes {W : Type} args kwargs (w : W) :
  let '(result, w') := get_user_details args kwargs w in
  w' = w
  ∧ match result with
    | Return r => ∃ u, r = user_dict u ∧ users_db !! user_id_ u = Some r
    | Raise e =>
        e = HTTPException 404 (py "User not found")
        ∨ ∃ msg, e = Error "TypeError" msg
    end.
Proof.
  unfold get_user_details. split; [done|].
  destruct (bind_user_id _ args kwargs) as [user_id|e] eqn:Hbind.
  - apply get_user_details_body_outcomes.
  - right. unfold bind_user_id in Hbind.
    destruct (map_to_list _) as [|[k v] l]; [|injection Hbind as <-; eauto].
    destruct args as [|a [|b args]], (kwargs !! py "user_id");
      simplify_eq; eauto.
Qed.

(** One request on a store that is up and holds only what the route
    writes, with the state it leaves. *)
Lemma route_step (z : Z) (st : state redis) :
  store_ok (world st) → z ≠ 0 →
  let key := cache_key (py "users") (PInt z) in
  match entries (world st) !! users_key z, users_db !! z with
  | Some _, Some record =>
      get_users_route z st
      = ((200, JsonBody record),
         State (world st) (trace st ++ [EvGet (py "users") key]))
  | None, Some record =>
      get_users_route z st
      = ((200, JsonBody record),
         State (Redis true true
                  (<[users_key z := (Json.encode record, 120)]> (entries (world st))))
           (trace st ++ [ EvGet (py "users") key;
                          EvCall [] (by_keyword (PInt z));
                          EvSet (py "users") key (Json.encode record) 120 ]))
  | None, None =>
      get_users_route z st
      = ((404, JsonBody (PDict [(py "detail", PStr (py "User not found"))])),
         State (world st) (trace st ++ [ EvGet (py "users") key;
                                         EvCall [] (by_keyword (PInt z)) ]))
  | Some _, None => False
  end.
Proof.
  destruct st as [[r wr ents] t]. intros (Hr & Hw & Hent) Hz; simpl in *; subst.
  pose proof (identifying_argument_keyword_int z Hz) as Hid.
  rewrite !get_users_route_unfold.
  destruct (ents !! users_key z) as [[value ttl]|] eqn:E.
  - destruct (Hent z value ttl E) as (record & Hdb & ->). rewrite Hdb.
    destruct (users_db_lookup z record Hdb) as (u & -> & Hname & Hemail & _).
    assert (Hloads : json_loads (PStr (Json.encode (user_dict u)))
                     = Return (user_dict u)).
    { change json_loads with Json.loads. unfold Json.loads.
      by rewrite (JsonFacts.decode_encode_user_dict u Hname Hemail). }
    rewrite (wrapper_hit 120 (py "users") get_user_details [] (by_keyword (PInt z))
               (State (Redis true true ents) t) (PInt z)
               (PStr (Json.encode (user_dict u))) (Redis true true ents) Hid).
    + cbn [fst snd]. by rewrite Hloads.
    + simpl. unfold redis_get. simpl.
      change (build_key _ _) with (users_key z). by rewrite E.
    + apply encode_user_dict_truthy.
  - assert (Hget : cache_get (py "users") (cache_key (py "users") (PInt z))
                     (Redis true true ents) = (Return PNone, Redis true true ents)).
    { simpl. unfold redis_get. simpl.
      change (build_key _ _) with (users_key z). by rewrite E. }
    pose proof (get_user_details_int z (Redis true true ents) [] (by_keyword (PInt z))
                  (or_introl (conj eq_refl eq_refl))) as Hfunc.
    destruct (users_db !! z) as [record|] eqn:Hdb.
    + by rewrite (wrapper_miss 120 (py "users") get_user_details [] (by_keyword (PInt z))
                 (State (Redis true true ents) t) (PInt z)
                 PNone _ record _ (Json.encode record)
                 (Redis true true (<[users_key z := (Json.encode record, 120)]> ents))
                 Hid Hget eq_refl Hfunc eq_refl eq_refl).
    + by rewrite (handler_error_propagates 120 (py "users") get_user_details []
                 (by_keyword (PInt z)) (State (Redis true true ents) t)
                 (PInt z) PNone _ _ _ Hid Hget eq_refl Hfunc).
Qed.

(** X7. On a store that is up and holds only what the route writes, the
    response to [GET /users/z] is decided by [z] alone: the server error for
    [0], the record with status 200 for an identifier of [users_db], the 404
    "User not found" for every other; and the store is again of that
    kind. *)
Theorem route_answers_every_identifier (z : Z) (st : state redis) :
  store_ok (world st) →
  (get_users_route z st).1
  = (if bool_decide (z = 0) then (500, TextBody (py "Internal Server Error"))
     else match users_db !! z with
          | Some record => (200, JsonBody record)
          | None => (404, JsonBody (PDict [(py "detail", PStr (py "User not found"))]))
          end)
  ∧ store_ok (world (get_users_route z st).2).
Proof. apply route_on_ok_store. Qed.

(** X8. A not-found answer is never cached: [n] requests for a non-zero
    identifier without a record are answered with [n] not-found responses,
    run the handler [n] times, and leave the store as it was. *)
Theorem not_found_is_never_cached (z : Z) (n : nat) (st : state redis) :
  store_ok (world st) → z ≠ 0 → users_db !! z = None →
  let '(responses, st') := serve (replicate n z) st in
  responses
    = replicate n (404, JsonBody (PDict [(py "detail", PStr (py "User not found"))]))
  ∧ world st' = world st
  ∧ handler_calls (trace st') = (handler_calls (trace st) + n)%nat
  ∧ store_writes (trace st') = store_writes (trace st).
Proof.
  intros Hok Hz Hdb. revert st Hok.
  induction n as [|n IH]; intros st Hok; simpl.
  - repeat split. lia.
  - pose proof (route_step z st Hok Hz) as Hstep. simpl in Hstep. rewrite Hdb in Hstep.
    destruct (entries (world st) !! users_key z); [done|]. rewrite Hstep.
    specialize (IH (State (world st)
                      (trace st ++ [ EvGet (py "users") (cache_key (py "users") (PInt z));
                                     EvCall [] (by_keyword (PInt z)) ])) Hok).
    destruct (serve (replicate n z) _) as [rs st2].
    destruct IH as (-> & Hw & Hcalls & Hwrites). cbn [world trace] in *.
    repeat split; [done| |].
    + rewrite Hcalls, handler_calls_app. unfold handler_calls at 2. simpl. lia.
    + rewrite Hwrites, store_writes_app. simpl. apply List.app_nil_r.
Qed.

(** Requests for a user whose record the store holds. *)
Lemma cached_user_is_not_fetched (z : Z) (record : pyval) (n : nat) (st : state redis) :
  store_ok (world st) → users_db !! z = Some record →
  is_Some (entries (world st) !! users_key z) →
  let '(responses, st') := serve (replicate n z) st in
  responses = replicate n (200, JsonBody record)
  ∧ world st' = world st
  ∧ handler_calls (trace st') = handler_calls (trace st).
Proof.
  intros Hok Hdb Hsome. revert st Hok Hsome.
  assert (Hz : z ≠ 0) by (by destruct (users_db_lookup z record Hdb) as (? & ? & ? & ? & ?)).
  induction n as [|n IH]; intros st Hok [entry Hentry]; simpl; [done|].
  pose proof (route_step z st Hok Hz) as Hstep. simpl in Hstep.
  rewrite Hentry, Hdb in Hstep. rewrite Hstep.
  specialize (IH (State (world st)
                    (trace st ++ [EvGet (py "users") (cache_key (py "users") (PInt z))]))
                Hok (ex_intro _ entry Hentry)).
  destruct (serve (replicate n z) _) as [rs st2].
  destruct IH as (-> & Hw & Hcalls). cbn [world trace] in *.
  repeat split; [done|]. by rewrite Hcalls, handler_calls_get.
Qed.

(** X9. A record is fetched once: [n] requests for an identifier of
    [users_db] are all answered with status 200 and its record, and the
    handler runs once if the store did not hold the record before the first
    request, and not at all if it did. *)
Theorem known_user_is_fetched_once (z : Z) (record : pyval) (n : nat)
    (st : state redis) :
  store_ok (world st) → users_db !! z = Some record →
  let '(responses, st') := serve (replicate n z) st in
  responses = replicate n (200, JsonBody record)
  ∧ handler_calls (trace st')
    = (handler_calls (trace st)
       + match entries (world st) !! users_key z, n with
         | None, S _ => 1
         | _, _ => 0
         end)%nat
  ∧ store_ok (world st').
Proof.
  intros Hok Hdb.
  assert (Hz : z ≠ 0) by (by destruct (users_db_lookup z record Hdb) as (? & ? & ? & ? & ?)).
  destruct (entries (world st) !! users_key z) as [entry|] eqn:Hentry.
  - pose proof (cached_user_is_not_fetched z record n st Hok Hdb
                  (ex_intro _ entry Hentry)) as H.
    destruct (serve (replicate n z) st) as [rs st'].
    destruct H as (-> & Hw & ->). rewrite Hw. repeat split; [lia|apply Hok..].
  - destruct n as [|n]; simpl; [repeat split; [lia|apply Hok..]|].
    pose proof (route_step z st Hok Hz) as Hstep. simpl in Hstep.
    rewrite Hentry, Hdb in Hstep.
    pose proof (proj2 (route_on_ok_store z st Hok)) as Hok1.
    rewrite Hstep in Hok1 |- *. cbn [snd world] in Hok1.
    match type of Hok1 with store_ok ?w1 =>
      match goal with |- context [serve _ (State w1 ?t1)] =>
        pose proof (cached_user_is_not_fetched z record n (State w1 t1) Hok1 Hdb) as H
      end
    end.
    cbn [world entries trace] in H. rewrite lookup_insert_eq in H.
    specialize (H (ex_intro _ _ eq_refl)).
    destruct (serve (replicate n z) _) as [rs st'].
    destruct H as (-> & Hw & ->). rewrite Hw. repeat split; [|apply Hok1..].
    replace (trace st ++ [ EvGet (py "users") (cache_key (py "users") (PInt z));
                           EvCall [] (by_keyword (PInt z));
                           EvSet (py "users") (cache_key (py "users") (PInt z))
                             (Json.encode record) 120 ])
      with (((trace st ++ [EvGet (py "users") (cache_key (py "users") (PInt z))])
               ++ [EvCall [] (by_keyword (PInt z))])
              ++ [EvSet (py "users") (cache_key (py "users") (PInt z))
                    (Json.encode record) 120])
      by (by rewrite <- !List.app_assoc).
    rewrite handler_calls_set, handler_calls_call, handler_calls_get. lia.
Qed.

(** X10. While the store cannot be read, every request ends in the server
    error, also for identifiers without a record: the handler is not
    reached and nothing is written. *)
Theorem unreachable_store_fails_every_request (z : Z) (st : state redis) :
  reads_ok (world st) = false →
  let '(response, st') := get_users_route z st in
  response = (500, TextBody (py "Internal Server Error"))
  ∧ world st' = world st
  ∧ handler_calls (trace st') = handler_calls (trace st)
  ∧ store_writes (trace st') = store_writes (trace st).
Proof.
  intros Hdown. rewrite get_users_route_unfold.
  destruct (decide (z = 0)) as [->|Hz].
  - by rewrite (wrapper_no_identifying_argument _ _ _ _ _ _ _
                  identifying_argument_keyword_zero).
  - pose proof (identifying_argument_keyword_int z Hz) as Hid.
    run_wrapper. rewrite Hid; simpl. unfold redis_get. rewrite Hdown; simpl.
    repeat split.
    + apply handler_calls_get.
    + rewrite store_writes_app. simpl. apply List.app_nil_r.
Qed.


(** X12. Caching does not show in the answers: on a store that is up and
    holds only what the route writes, any sequence of requests for non-zero
    identifiers is answered, request by request, as the undecorated handler
    would answer it. *)
Theorem decorated_route_answers_as_the_handler (ids : list Z) (st : state redis) :
  store_ok (world st) → Forall (λ z, z ≠ 0) ids →
  (serve ids st).1
  = List.map (λ z, http_response
                     (get_user_details [] (by_keyword (PInt z)) (world st)).1) ids.
Proof.
  intros Hok Hids. rewrite (proj1 (serve_on_ok_store ids st Hok)).
  induction Hids as [|z ids Hz _ IH]; [done|]. cbn [List.map]. rewrite IH. f_equal.
  rewrite bool_decide_eq_false_2 by done.
  rewrite (get_user_details_int z (world st) [] (by_keyword (PInt z))
             (or_introl (conj eq_refl eq_refl))).
  by destruct (users_db !! z).
Qed.

(** The wrapper on a miss when the store write fails. *)
Lemma wrapper_write_failure {W : Type} `{!Collaborators W}
    ttl ns (func : handler W) args kwargs (st : state W)
    uid cached w1 response w2 serialized e w3 :
  identifying_argument args kwargs = Return uid →
  cache_get ns (cache_key ns uid) (world st) = (Return cached, w1) →
  truthy cached = false →
  func args kwargs w1 = (Return response, w2) →
  json_dumps response = Return serialized →
  cache_set ns (cache_key ns uid) serialized ttl w2 = (Raise e, w3) →
  wrapper ttl ns func args kwargs st
  = (Raise (HTTPException 500 (py "Error caching data: " ++ exn_str e)),
     State w3 (trace st ++ [ EvGet ns (cache_key ns uid);
                             EvCall args kwargs;
                             EvSet ns (cache_key ns uid) serialized ttl ])).
Proof.
  intros Hid Hget Hfalse Hfunc Hdumps Hset. run_wrapper.
  rewrite Hid; simpl. rewrite Hget; simpl. rewrite Hfalse; simpl.
  rewrite Hfunc; simpl. rewrite Hdumps; simpl. rewrite Hset; simpl.
  by rewrite <- !List.app_assoc.
Qed.

(** X13. While the store can be read and not written, every request for an
    identifier of [users_db] that the store does not hold runs the handler
    and still ends in the caching error, with status 500 and the detail
    ["Error caching data: "] followed by the text of the store's error;
    nothing is stored, so the next request does the same. *)
Theorem write_outage_fails_every_fresh_request (z : Z) (record : pyval) (n : nat)
    (st : state redis) :
  reads_ok (world st) = true → writes_ok (world st) = false →
  entries (world st) !! users_key z = None →
  users_db !! z = Some record →
  let '(responses, st') := serve (replicate n z) st in
  responses
    = replicate n
        (500, JsonBody (PDict [(py "detail",
                                PStr (py "Error caching data: "
                                        ++ exn_str connection_error))]))
  ∧ world st' = world st
  ∧ handler_calls (trace st') = (handler_calls (trace st) + n)%nat.
Proof.
  intros Hr Hw Hentry Hdb.
  assert (Hz : z ≠ 0) by (by destruct (users_db_lookup z record Hdb) as (? & ? & ? & ? & ?)).
  pose proof (identifying_argument_keyword_int z Hz) as Hid.
  revert st Hr Hw Hentry.
  induction n as [|n IH]; intros st Hr Hw Hentry; simpl; [repeat split; lia|].
  assert (Hstep : get_users_route z st
    = ((500, JsonBody (PDict [(py "detail",
                               PStr (py "Error caching data: "
                                       ++ exn_str connection_error))])),
       State (world st)
         (trace st ++ [ EvGet (py "users") (cache_key (py "users") (PInt z));
                        EvCall [] (by_keyword (PInt z));
                        EvSet (py "users") (cache_key (py "users") (PInt z))
                          (Json.encode record) 120 ]))).
  { rewrite get_users_route_unfold.
    rewrite (wrapper_write_failure 120 (py "users") get_user_details []
               (by_keyword (PInt z)) st (PInt z) PNone (world st) record (world st)
               (Json.encode record) connection_error (world st)); try done.
    - simpl. unfold redis_get. rewrite Hr.
      change (build_key _ _) with (users_key z). by rewrite Hentry.
    - rewrite (get_user_details_int z (world st) [] (by_keyword (PInt z))
                 (or_introl (conj eq_refl eq_refl))). by rewrite Hdb.
    - simpl. unfold redis_set. by rewrite Hw. }
  rewrite Hstep.
  specialize (IH (State (world st)
                    (trace st ++ [ EvGet (py "users") (cache_key (py "users") (PInt z));
                                   EvCall [] (by_keyword (PInt z));
                                   EvSet (py "users") (cache_key (py "users") (PInt z))
                                     (Json.encode record) 120 ])) Hr Hw Hentry).
  destruct (serve (replicate n z) _) as [rs st2].
  destruct IH as (-> & Hw2 & Hcalls). cbn [world trace] in *.
  repeat split; [done|].
  rewrite Hcalls.
  replace (trace st ++ [ EvGet (py "users") (cache_key (py "users") (PInt z));
                         EvCall [] (by_keyword (PInt z));
                         EvSet (py "users") (cache_key (py "users") (PInt z))
                           (Json.encode record) 120 ])
    with (((trace st ++ [EvGet (py "users") (cache_key (py "users") (PInt z))])
             ++ [EvCall [] (by_keyword (PInt z))])
            ++ [EvSet (py "users") (cache_key (py "users") (PInt z))
                  (Json.encode record) 120])
    by (by rewrite <- !List.app_assoc).
  rewrite handler_calls_set, handler_calls_call, handler_calls_get. lia.
Qed.

(** X14. An empty cached text counts as a miss and is replaced: the request
    runs the handler, answers with its record and leaves the serialization
    of the record in the store, with the time to live of the route. *)
Theorem empty_entry_is_replaced (z : Z) (record : pyval) (ttl : Z)
    (st : state redis) :
  reads_ok (world st) = true → writes_ok (world st) = true →
  entries (world st) !! users_key z = Some ([], ttl) →
  users_db !! z = Some record →
  let '(response, st') := get_users_route z st in
  response = (200, JsonBody record)
  ∧ entries (world st') !! users_key z = Some (Json.encode record, 120)
  ∧ handler_calls (trace st') = S (handler_calls (trace st)).
Proof.
  destruct st as [[r wr ents] t]. simpl. intros -> -> Hentry Hdb.
  assert (Hz : z ≠ 0) by (by destruct (users_db_lookup z record Hdb) as (? & ? & ? & ? & ?)).
  pose proof (identifying_argument_keyword_int z Hz) as Hid.
  assert (Hget : cache_get (py "users") (cache_key (py "users") (PInt z))
                   (Redis true true ents) = (Return (PStr []), Redis true true ents)).
  { simpl. unfold redis_get. simpl.
    change (build_key _ _) with (users_key z). by rewrite Hentry. }
  pose proof (get_user_details_int z (Redis true true ents) [] (by_keyword (PInt z))
                (or_introl (conj eq_refl eq_refl))) as Hfunc.
  rewrite Hdb in Hfunc.
  rewrite get_users_route_unfold.
  rewrite (wrapper_miss 120 (py "users") get_user_details [] (by_keyword (PInt z))
             (State (Redis true true ents) t) (PInt z)
             (PStr []) _ record _ (Json.encode record)
             (Redis true true (<[users_key z := (Json.encode record, 120)]> ents))
             Hid Hget eq_refl Hfunc eq_refl eq_refl).
  cbn [fst snd world entries trace http_response]. repeat split.
  - by rewrite lookup_insert_eq.
  - replace (t ++ [ EvGet (py "users") (cache_key (py "users") (PInt z));
                    EvCall [] (by_keyword (PInt z));
                    EvSet (py "users") (cache_key (py "users") (PInt z))
                      (Json.encode record) 120 ])
      with (((t ++ [EvGet (py "users") (cache_key (py "users") (PInt z))])
               ++ [EvCall [] (by_keyword (PInt z))])
              ++ [EvSet (py "users") (cache_key (py "users") (PInt z))
                    (Json.encode record) 120])
      by (by rewrite <- !List.app_assoc).
    by rewrite handler_calls_set, handler_calls_call, handler_calls_get.
Qed.

(* ===================================================================== *)
(** ** The further properties at concrete inputs *)
(* ===================================================================== *)

(** X1 for a request for user 99 on the empty server. *)
Lemma handler_exception_witness :
  let '(result, st') :=
    wrapper 120 (py "users") get_user_details [] (by_keyword (PInt 99))
      (State empty_redis []) in
  result = Raise (HTTPException 404 (py "User not found"))
  ∧ world st' = empty_redis
  ∧ trace st' = [] ++ [ EvGet (py "users") (cache_key (py "users") (PInt 99));
                        EvCall [] (by_keyword (PInt 99)) ]
  ∧ store_writes (trace st') = store_writes [].
Proof.
  apply (handler_exception_passes_through (W:=redis)
           120 (py "users") get_user_details [] (by_keyword (PInt 99))
           (State empty_redis []) (PInt 99) PNone empty_redis
           (HTTPException 404 (py "User not found")) empty_redis);
    vm_compute; reflexivity.
Defined.

(** X4 on the server that holds the record of user 1: the second handler,
    called with the text ["1"], a further positional argument and a further
    keyword argument. *)
Lemma hit_ignores_witness :
  wrapper 5 (py "users") other_handler
    [PStr (py "1"); PBool true] {[ py "verbose" := PBool true ]} (State warm_redis [])
  = wrapper 120 (py "users") get_user_details [] (by_keyword (PInt 1))
      (State warm_redis []).
Proof.
  apply (hit_ignores_everything_but_the_key (W:=redis)
           120 5 (py "users") get_user_details other_handler
           [] [PStr (py "1"); PBool true]
           (by_keyword (PInt 1)) {[ py "verbose" := PBool true ]}
           (State warm_redis []) (PInt 1) (PStr (py "1"))
           (PStr (Json.encode manas)) warm_redis);
    vm_compute; reflexivity.
Defined.

(** X5 for two requests for user 1 on the empty server. *)
Lemma second_call_witness :
  let '(first, st1) :=
    wrapper 120 (py "users") get_user_details [] (by_keyword (PInt 1))
      (State empty_redis []) in
  let '(second, st2) :=
    wrapper 120 (py "users") get_user_details [] (by_keyword (PInt 1)) st1 in
  first = Return manas
  ∧ second = Return manas
  ∧ world st2 = warm_redis
  ∧ handler_calls (trace st2) = S (handler_calls [])
  ∧ List.length (store_writes (trace st2)) = S (List.length (store_writes [])).
Proof.
  apply (second_call_is_served_from_the_store (W:=redis)
           120 (py "users") get_user_details [] (by_keyword (PInt 1))
           (State empty_redis []) (PInt 1) PNone empty_redis manas empty_redis
           (Json.encode manas) warm_redis (PStr (Json.encode manas)) warm_redis);
    vm_compute; reflexivity.
Defined.

(** X7 for user 2 on the empty server. *)
Lemma route_answers_witness :
  (get_users_route 2 (State empty_redis [])).1
  = (if bool_decide (2 = 0) then (500, TextBody (py "Internal Server Error"))
     else match users_db !! 2 with
          | Some record => (200, JsonBody record)
          | None => (404, JsonBody (PDict [(py "detail", PStr (py "User not found"))]))
          end)
  ∧ store_ok (world (get_users_route 2 (State empty_redis [])).2).
Proof.
  apply (route_answers_every_identifier 2 (State empty_redis [])).
  apply empty_redis_ok.
Defined.

(** X8 for three requests for user 99 on the empty server. *)
Lemma not_found_witness :
  let '(responses, st') := serve (replicate 3 99) (State empty_redis []) in
  responses
    = replicate 3 (404, JsonBody (PDict [(py "detail", PStr (py "User not found"))]))
  ∧ world st' = empty_redis
  ∧ handler_calls (trace st') = (handler_calls [] + 3)%nat
  ∧ store_writes (trace st') = store_writes [].
Proof.
  apply (not_found_is_never_cached 99 3 (State empty_redis []));
    [apply empty_redis_ok|done|reflexivity].
Defined.

(** X9 for three requests for user 2 on the empty server. *)
Lemma fetched_once_witness :
  let '(responses, st') := serve (replicate 3 2) (State empty_redis []) in
  responses
    = replicate 3
        (200, JsonBody (user_dict (mkUser 2 (py "omkar") (py "omkar@example.com") 29)))
  ∧ handler_calls (trace st') = (handler_calls [] + 1)%nat
  ∧ store_ok (world st').
Proof.
  apply (known_user_is_fetched_once 2
           (user_dict (mkUser 2 (py "omkar") (py "omkar@example.com") 29)) 3
           (State empty_redis []));
    [apply empty_redis_ok|reflexivity].
Defined.

(** X10 for user 99 on a server that is down. *)
Lemma unreachable_store_witness :
  let '(response, st') := get_users_route 99 (State down_redis []) in
  response = (500, TextBody (py "Internal Server Error"))
  ∧ world st' = down_redis
  ∧ handler_calls (trace st') = handler_calls []
  ∧ store_writes (trace st') = store_writes [].
Proof.
  apply (unreachable_store_fails_every_request 99 (State down_redis [])).
  reflexivity.
Defined.


(** X12 for four requests on the empty server. *)
Lemma answers_as_the_handler_witness :
  (serve [1; 99; 1; 2] (State empty_redis [])).1
  = List.map (λ z, http_response
                     (get_user_details [] (by_keyword (PInt z)) empty_redis).1)
      [1; 99; 1; 2].
Proof.
  apply (decorated_route_answers_as_the_handler [1; 99; 1; 2] (State empty_redis []));
    [apply empty_redis_ok|by repeat constructor].
Defined.

(** X13 for two requests for user 1 on a server that refuses writes. *)
Lemma write_outage_witness :
  let '(responses, st') := serve (replicate 2 1) (State read_only_redis []) in
  responses
    = replicate 2
        (500, JsonBody (PDict [(py "detail",
                                PStr (py "Error caching data: "
                                        ++ exn_str connection_error))]))
  ∧ world st' = read_only_redis
  ∧ handler_calls (trace st') = (handler_calls [] + 2)%nat.
Proof.
  apply (write_outage_fails_every_fresh_request 1 manas 2 (State read_only_redis []));
    vm_compute; reflexivity.
Defined.

(** X14 for user 1 on a server that holds the empty text under its key. *)
Lemma empty_entry_witness :
  let '(response, st') :=
    get_users_route 1 (State (Redis true true {[ users_key 1 := ([], 7) ]}) []) in
  response = (200, JsonBody manas)
  ∧ entries (world st') !! users_key 1 = Some (Json.encode manas, 120)
  ∧ handler_calls (trace st') = S (handler_calls []).
Proof.
  apply (empty_entry_is_replaced 1 manas 7
           (State (Redis true true {[ users_key 1 := ([], 7) ]}) []));
    vm_compute; reflexivity.
Defined.
